(** * Telegram reminder agent: a shallow embedding of [telegram_reminder_agent.py]

    The program is a single asynchronous message handler, [handle_message],
    and a single job callback, [send_reminder].  Everything else it touches
    is a collaborator: the language-model chain, [datetime], the job queue
    and the chat transport.  The embedding keeps the two functions as they
    are written and threads the collaborators' state (clock, pending jobs,
    messages sent) through an exception-and-state monad. *)

From stdpp Require Import gmap strings list.
From Stdlib Require Import ZArith Lia.
From Stdlib Require Import Ascii DecimalString.

Open Scope Z_scope.

(** ** Python exceptions and outcomes *)

Inductive exn :=
| ValueError (arg : string)
| KeyError (key : string)
| TypeError (msg : string)
| ChainError (detail : string).

Inductive outcome (A : Type) :=
| Returned (a : A)
| Raised (e : exn).
Arguments Returned {A} a.
Arguments Raised {A} e.

(** ** The part of [datetime] the handler uses *)

Module PyDatetime.

(** A [timedelta] is an exact count of microseconds. *)
Definition timedelta := Z.

Definition td_second : timedelta := 1000000.
Definition td_minute : timedelta := 60 * td_second.
Definition td_hour : timedelta := 60 * td_minute.
Definition td_day : timedelta := 24 * td_hour.

(** [timedelta(days, seconds, microseconds)] *)
Definition mk_timedelta (days seconds microseconds : Z) : timedelta :=
  days * td_day + seconds * td_second + microseconds.

(** The wall-clock fields of a [datetime]. *)
Record civil := Civil {
  year : Z; month : Z; day : Z;
  hour : Z; minute : Z; second : Z; microsecond : Z
}.

(** A [datetime]: wall-clock fields and [tzinfo], which is [None] for a
    naive value and a fixed offset from UTC otherwise ([fromisoformat]
    and [timezone.utc] produce no other kind of [tzinfo]). *)
Record datetime := Datetime {
  fields : civil;
  tzinfo : option timedelta
}.

(** [timezone.utc] *)
Definition timezone_utc : timedelta := 0.

Definition is_leap (y : Z) : bool :=
  (y mod 4 =? 0) && (negb (y mod 100 =? 0) || (y mod 400 =? 0)).

(** Days before January 1st of year [y]. *)
Definition days_before_year (y : Z) : Z :=
  let y := y - 1 in
  y * 365 + y / 4 - y / 100 + y / 400.

Definition DAYS_BEFORE_MONTH : list Z :=
  [0; 0; 31; 59; 90; 120; 151; 181; 212; 243; 273; 304; 334].

(** Days in year [y] before the first day of month [m]. *)
Definition days_before_month (y m : Z) : Z :=
  nth (Z.to_nat m) DAYS_BEFORE_MONTH 0
  + (if (2 <? m) && is_leap y then 1 else 0).

(** Proleptic Gregorian ordinal: 0001-01-01 is day 1. *)
Definition ymd2ord (y m d : Z) : Z :=
  days_before_year y + days_before_month y m + d.

Definition toordinal (c : civil) : Z :=
  ymd2ord (year c) (month c) (day c).

Definition seconds_of_day (c : civil) : Z :=
  second c + minute c * 60 + hour c * 3600.

(** [dt.replace(tzinfo=tz)]: same wall-clock fields, new [tzinfo]. *)
Definition replace_tzinfo (dt : datetime) (tz : option timedelta) : datetime :=
  {| fields := fields dt; tzinfo := tz |}.

Definition utcoffset (dt : datetime) : option timedelta := tzinfo dt.

(** [datetime.__sub__] on two datetimes: the difference of the
    wall-clock readings, corrected by the two offsets when both values
    are aware; mixing a naive and an aware value raises [TypeError]. *)
Definition datetime_sub (a b : datetime) : outcome timedelta :=
  let base :=
    mk_timedelta (toordinal (fields a) - toordinal (fields b))
                 (seconds_of_day (fields a) - seconds_of_day (fields b))
                 (microsecond (fields a) - microsecond (fields b)) in
  match utcoffset a, utcoffset b with
  | None, None => Returned base
  | Some myoff, Some otoff => Returned (base + otoff - myoff)
  | _, _ => Raised (TypeError "cannot mix naive and timezone-aware time")
  end.

(** Microseconds from the start of day 0 to the wall-clock reading. *)
Definition civil_micros (c : civil) : Z :=
  mk_timedelta (toordinal c) (seconds_of_day c) (microsecond c).

(** The absolute instant an aware datetime denotes, as microseconds of
    UTC; this is what [datetime.__eq__] and [__sub__] compare. *)
Definition instant (c : civil) (off : timedelta) : Z :=
  civil_micros c - off.

(** [a == b] for aware datetimes: equality of instants. *)
Definition aware_eqb (a b : datetime) : bool :=
  match datetime_sub a b with
  | Returned d => d =? 0
  | Raised _ => false
  end.

(** *** [isoformat] *)

Definition dec (n : Z) : string :=
  NilZero.string_of_uint (N.to_uint (Z.to_N n)).

Fixpoint zeros (k : nat) : string :=
  match k with
  | O => EmptyString
  | S k => String "0"%char (zeros k)
  end.

(** ["%0<width>d" % n] for a non-negative [n]. *)
Definition pad (width : nat) (n : Z) : string :=
  let s := dec n in
  zeros (width - String.length s)%nat +:+ s.

Definition format_time (c : civil) : string :=
  pad 2 (hour c) +:+ ":" +:+ pad 2 (minute c) +:+ ":" +:+ pad 2 (second c)
  +:+ (if microsecond c =? 0 then EmptyString else "." +:+ pad 6 (microsecond c)).

Definition format_offset (off : option timedelta) : string :=
  match off with
  | None => EmptyString
  | Some off =>
      let sign := if off <? 0 then "-" else "+" in
      let off := Z.abs off in
      let hh := off / td_hour in
      let mm := off mod td_hour in
      let ss := mm mod td_minute in
      let mm := mm / td_minute in
      sign +:+ pad 2 hh +:+ ":" +:+ pad 2 mm
      +:+ (if ss =? 0 then EmptyString
           else ":" +:+ pad 2 (ss / td_second)
                +:+ (if ss mod td_second =? 0 then EmptyString
                     else "." +:+ pad 6 (ss mod td_second)))
  end.

Definition isoformat (dt : datetime) : string :=
  let c := fields dt in
  pad 4 (year c) +:+ "-" +:+ pad 2 (month c) +:+ "-" +:+ pad 2 (day c)
  +:+ "T" +:+ format_time c +:+ format_offset (utcoffset dt).

End PyDatetime.
Import PyDatetime.


(** ** The world the handler runs in *)

(** The only callback the program ever registers with the job queue. *)
Inductive callback := cb_send_reminder.

(** A pending job of the queue: what [run_once] was given, plus the
    identity of the job and the instant it is due. *)
Record Job := mkJob {
  job_id : nat;
  job_callback : callback;
  job_due : Z;
  job_chat_id : Z;
  job_data : string
}.

(** Messages handed to the chat transport. *)
Inductive event :=
| Replied (chat_id : Z) (text : string)
| Sent (chat_id : Z) (text : string).

Record world := World {
  clock : civil;          (* the UTC wall clock *)
  pending : list Job;     (* the job queue's registry, oldest first *)
  next_id : nat;          (* source of job identities *)
  outbox : list event     (* everything sent so far, oldest first *)
}.

Definition initial_world (c : civil) : world :=
  {| clock := c; pending := []; next_id := O; outbox := [] |}.

(** The instant of a UTC wall-clock reading. *)
Definition utc_instant (c : civil) : Z := instant c timezone_utc.

(** ** Computations: state passing with Python exceptions *)

Definition M (A : Type) : Type := world -> outcome A * world.

Definition ret {A} (a : A) : M A := fun w => (Returned a, w).

Definition raise {A} (e : exn) : M A := fun w => (Raised e, w).

Definition bind {A B} (c : M A) (k : A -> M B) : M B :=
  fun w =>
    match c w with
    | (Returned a, w') => k a w'
    | (Raised e, w') => (Raised e, w')
    end.

Definition lift {A} (r : outcome A) : M A := fun w => (r, w).

Notation "x <- c ;; k" := (bind c (fun x => k))
  (at level 100, c at next level, right associativity).

(** ** The collaborators *)

(** [d[key]] on a Python dict. *)
Definition getitem (d : gmap string string) (key : string) : M string :=
  match d !! key with
  | Some v => ret v
  | None => raise (KeyError key)
  end.

(** [datetime.now(timezone.utc)] *)
Definition datetime_now_utc : M datetime :=
  fun w => (Returned (Datetime (clock w) (Some timezone_utc)), w).

(** [context.bot.send_message(chat_id, text=...)], with a transport that
    accepts the message. *)
Definition send_message (chat_id : Z) (text : string) : M unit :=
  fun w => (Returned tt,
            {| clock := clock w; pending := pending w; next_id := next_id w;
               outbox := outbox w ++ [Sent chat_id text] |}).

(** An incoming update that carries a message: the message text and the
    chat it came from.  (An update without [update.message], such as an
    edited message, is outside this record.) *)
Record Update := mkUpdate {
  message_text : string;
  effective_chat_id : Z
}.

(** [update.message.reply_text(text)], with a transport that accepts the
    message. *)
Definition reply_text (update : Update) (text : string) : M unit :=
  fun w => (Returned tt,
            {| clock := clock w; pending := pending w; next_id := next_id w;
               outbox := outbox w ++ [Replied (effective_chat_id update) text] |}).

(** *** The job queue *)

Module JobQueue.

(** Modelled from the spec: the timer registry behind
    [context.job_queue], which is not part of the program's source.
    [run_once callback when chat_id data] arms a single-shot timer due
    [when] after the current instant, registers it under a fresh
    identity and returns the job at once. *)
Definition run_once (cb : callback) (when : timedelta)
    (chat_id : Z) (data : string) : M Job :=
  fun w =>
    let j := {| job_id := next_id w; job_callback := cb;
                job_due := utc_instant (clock w) + when;
                job_chat_id := chat_id; job_data := data |} in
    (Returned j,
     {| clock := clock w; pending := pending w ++ [j];
        next_id := S (next_id w); outbox := outbox w |}).

Definition is_due (now : Z) (j : Job) : Prop := job_due j <= now.

#[global] Instance is_due_dec now j : Decision (is_due now j).
Proof. unfold is_due. apply _. Defined.

(** Modelled from the spec: cancelling a pending job releases its timer;
    the result tells whether there was a timer to release. *)
Definition cancel (id : nat) : M bool :=
  fun w =>
    (Returned (bool_decide (id ∈ job_id <$> pending w)),
     {| clock := clock w;
        pending := filter (fun j => job_id j ≠ id) (pending w);
        next_id := next_id w; outbox := outbox w |}).

End JobQueue.

(** ** The program *)

(** [send_reminder(context)]: the job callback; [context.job] is the job
    that fired and [context.bot] the transport. *)
Definition send_reminder (job : Job) : M unit :=
  send_message (job_chat_id job) ("Reminder: " +:+ job_data job).

(** Lines 67-68 of the handler: a naive [remind_time] is tagged as UTC, an
    aware one is kept as it is. *)
Definition tag_utc (remind_time : datetime) : datetime :=
  match tzinfo remind_time with
  | None => replace_tzinfo remind_time (Some timezone_utc)
  | Some _ => remind_time
  end.

Section Handler.

(** [PROMPT | LLM | OUTPUT_PARSER]: the chain answers a message with a
    dict (the parser's schema asks for the keys [task] and [time]) or
    raises. *)
Variable chain_invoke : string -> outcome (gmap string string).

(** [datetime.fromisoformat]: [None] stands for its [ValueError]. *)
Variable fromisoformat : string -> option datetime.

Definition datetime_fromisoformat (time_str : string) : M datetime :=
  match fromisoformat time_str with
  | Some dt => ret dt
  | None => raise (ValueError time_str)
  end.

Definition handle_message (update : Update) : M unit :=
  let user_text := message_text update in
  parsed <- lift (chain_invoke user_text) ;;
  task <- getitem parsed "task" ;;
  time_str <- getitem parsed "time" ;;
  remind_time <- datetime_fromisoformat time_str ;;
  let remind_time := tag_utc remind_time in
  let chat_id := effective_chat_id update in
  now <- datetime_now_utc ;;
  delay <- lift (datetime_sub remind_time now) ;;
  _ <- JobQueue.run_once cb_send_reminder delay chat_id task ;;
  reply_text update
    ("Got it! I'll remind you to " +:+ task +:+ " at "
     +:+ isoformat remind_time).

End Handler.

(** *** Firing *)

Definition run_callback (j : Job) : M unit :=
  match job_callback j with
  | cb_send_reminder => send_reminder j
  end.

(** The callbacks of the jobs that fired run one after the other; what a
    callback raises is the queue's to log, the others still run. *)
Fixpoint run_jobs (js : list Job) (w : world) : world :=
  match js with
  | [] => w
  | j :: js => run_jobs js (snd (run_callback j w))
  end.

(** Modelled from the spec: a scheduler tick at UTC wall clock [t], as the
    job queue (not part of the program's source) performs it.  Every
    pending job that is due leaves the registry and has its callback
    invoked; the result lists the jobs whose callback ran. *)
Definition tick (t : civil) (w : world) : list Job * world :=
  let now := utc_instant t in
  let due := filter (JobQueue.is_due now) (pending w) in
  let w' := {| clock := t;
               pending := filter (fun j => ¬ JobQueue.is_due now j) (pending w);
               next_id := next_id w; outbox := outbox w |} in
  (due, run_jobs due w').

(** ** Runs of the bot *)

Inductive op :=
| OpMessage (update : Update)
| OpTick (t : civil)
| OpCancel (id : nat).

Inductive obs :=
| Handled (r : outcome unit)
| Fired (j : Job)
| Cancelled (id : nat) (released : bool).

Section Runs.

Variable chain_invoke : string -> outcome (gmap string string).
Variable fromisoformat : string -> option datetime.

(** One step of the bot: a message reaches the handler, the scheduler
    ticks, or a reminder is cancelled.  The dispatcher that calls the
    handler is not part of the program's source; what the handler returns
    or raises is recorded and the run goes on. *)
Definition run_op (o : op) (w : world) : list obs * world :=
  match o with
  | OpMessage u =>
      let (r, w') := handle_message chain_invoke fromisoformat u w in
      ([Handled r], w')
  | OpTick t =>
      let (js, w') := tick t w in (Fired <$> js, w')
  | OpCancel id =>
      match JobQueue.cancel id w with
      | (Returned b, w') => ([Cancelled id b], w')
      | (Raised _, w') => ([], w')
      end
  end.

Fixpoint run_ops (os : list op) (w : world) : list obs * world :=
  match os with
  | [] => ([], w)
  | o :: os =>
      let (l1, w1) := run_op o w in
      let (l2, w2) := run_ops os w1 in
      (l1 ++ l2, w2)
  end.

End Runs.

(** How often the callback ran for job [id], and how often a cancellation
    of [id] released a timer, in a log of observations. *)
Definition is_fired (id : nat) (o : obs) : bool :=
  match o with
  | Fired j => bool_decide (job_id j = id)
  | _ => false
  end.

Definition is_released (id : nat) (o : obs) : bool :=
  match o with
  | Cancelled i true => bool_decide (i = id)
  | _ => false
  end.

Definition fired_of (id : nat) (log : list obs) : list obs :=
  List.filter (is_fired id) log.

Definition released_of (id : nat) (log : list obs) : list obs :=
  List.filter (is_released id) log.

Definition deliveries (id : nat) (log : list obs) : nat :=
  length (fired_of id log).


(** The jobs whose callback ran according to a log, in order. *)
Definition fired_jobs (log : list obs) : list Job :=
  omap (fun o => match o with Fired j => Some j | _ => None end) log.

(** The [Sent] messages of an outbox, in order. *)
Definition sent_messages (out : list event) : list (Z * string) :=
  omap (fun e => match e with Sent c t => Some (c, t) | Replied _ _ => None end) out.

(** A task the spec calls empty: nothing but ASCII whitespace. *)
Definition is_space (a : ascii) : bool :=
  let n := nat_of_ascii a in
  ((9 <=? n)%nat && (n <=? 13)%nat) || (n =? 32)%nat.

Fixpoint whitespace_only (s : string) : bool :=
  match s with
  | EmptyString => true
  | String a s => is_space a && whitespace_only s
  end.

(** ** Concrete collaborators, for running the model

    [iso_extended] reads the extended ISO 8601 form
    [YYYY-MM-DDTHH:MM:SS] followed by nothing, by [Z] or by [+HH:MM] /
    [-HH:MM], and checks the field ranges; it is one instance of the
    [fromisoformat] parameter.  [stub_chain] is a chain that answers every
    message with the same dict. *)

Module Sample.

Definition digit (a : ascii) : option Z :=
  let n := nat_of_ascii a in
  if ((48 <=? n)%nat && (n <=? 57)%nat)%bool then Some (Z.of_nat n - 48)
  else None.

(** Exactly [k] decimal digits. *)
Fixpoint number (k : nat) (acc : Z) (s : string) : option (Z * string) :=
  match k with
  | O => Some (acc, s)
  | S k =>
      match s with
      | String a s =>
          match digit a with
          | Some d => number k (10 * acc + d) s
          | None => None
          end
      | EmptyString => None
      end
  end.

Definition expect (c : ascii) (s : string) : option string :=
  match s with
  | String a s => if Ascii.eqb a c then Some s else None
  | EmptyString => None
  end.

Definition days_in_month (y m : Z) : Z :=
  if (m =? 2) && is_leap y then 29
  else nth (Z.to_nat m) [0; 31; 28; 31; 30; 31; 30; 31; 31; 30; 31; 30; 31] 0.

Definition valid_civil (c : civil) : bool :=
  (1 <=? year c) && (year c <=? 9999)
  && (1 <=? month c) && (month c <=? 12)
  && (1 <=? day c) && (day c <=? days_in_month (year c) (month c))
  && (hour c <? 24) && (minute c <? 60) && (second c <? 60).

Definition parse_offset (s : string) : option (option timedelta) :=
  match s with
  | EmptyString => Some None
  | String a rest =>
      if Ascii.eqb a "Z" then
        match rest with EmptyString => Some (Some timezone_utc) | _ => None end
      else
        let sign :=
          if Ascii.eqb a "+" then Some 1
          else if Ascii.eqb a "-" then Some (-1) else None in
        sg ← sign;
        '(hh, s) ← number 2 0 rest;
        s ← expect ":" s;
        '(mm, s) ← number 2 0 s;
        match s with
        | EmptyString =>
            if (hh <? 24) && (mm <? 60)
            then Some (Some (sg * (hh * td_hour + mm * td_minute)))
            else None
        | _ => None
        end
  end.

Definition iso_extended (s : string) : option datetime :=
  '(y, s) ← number 4 0 s;
  s ← expect "-" s;
  '(m, s) ← number 2 0 s;
  s ← expect "-" s;
  '(d, s) ← number 2 0 s;
  s ← expect "T" s;
  '(hh, s) ← number 2 0 s;
  s ← expect ":" s;
  '(mi, s) ← number 2 0 s;
  s ← expect ":" s;
  '(ss, s) ← number 2 0 s;
  tz ← parse_offset s;
  let c := Civil y m d hh mi ss 0 in
  if valid_civil c then Some (Datetime c tz) else None.

Definition stub_chain (task time : string) (message : string)
  : outcome (gmap string string) :=
  Returned (<["task" := task]> (<["time" := time]> ∅)).

(** A chain that takes the message itself for the timestamp. *)
Definition echo_chain (task : string) (message : string)
  : outcome (gmap string string) :=
  Returned (<["task" := task]> (<["time" := message]> ∅)).

Definition midnight_2024 : civil := Civil 2024 1 1 0 0 0 0.

Definition two_pm_next_day : civil := Civil 2024 1 2 14 0 0 0.

Definition w0 : world := initial_world midnight_2024.

Definition sam_chain : string -> outcome (gmap string string) :=
  stub_chain "call Sam" "2024-01-02T14:00:00Z".

Definition sam_time : datetime := Datetime two_pm_next_day (Some timezone_utc).

(** A reminder asked for a moment almost a year before [midnight_2024]. *)
Definition late_chain : string -> outcome (gmap string string) :=
  stub_chain "call Sam" "2023-01-02T14:00:00Z".

Definition late_time : datetime :=
  Datetime (Civil 2023 1 2 14 0 0 0) (Some timezone_utc).

(** The same wall-clock reading as [sam_time], without an offset. *)
Definition naive_time : datetime := Datetime two_pm_next_day None.

(** The same instant as [sam_time], written with an offset of two hours. *)
Definition offset_time : datetime :=
  Datetime (Civil 2024 1 2 16 0 0 0) (Some (2 * td_hour)).

(** A registry with one pending job. *)
Definition tea_job : Job := mkJob 0 cb_send_reminder 100 7 "tea".

Definition tea_world : world := World midnight_2024 [tea_job] 1 [].

Definition tea_run : list op :=
  [OpCancel 0; OpTick two_pm_next_day; OpCancel 0].

Definition sam : Update :=
  mkUpdate "remind me to call Sam tomorrow at 2pm UTC" 4242.

End Sample.

(** ** Notions the statements use *)

(** The instant an aware datetime denotes. *)
Definition aware_instant (dt : datetime) : option Z :=
  off ← tzinfo dt; Some (instant (fields dt) off).

(** The instant at which the handler's [remind_time] falls: the instant of
    the parsed value once lines 67-68 have tagged it. *)
Definition fire_instant (dt : datetime) : Z :=
  default 0 (aware_instant (tag_utc dt)).

(** The extraction succeeded for update [u]: the chain answered with both
    keys and the timestamp parsed. *)
Definition extracted (chain_invoke : string -> outcome (gmap string string))
    (fromisoformat : string -> option datetime)
    (u : Update) (task : string) (dt : datetime) : Prop :=
  exists parsed time_str,
    chain_invoke (message_text u) = Returned parsed
    /\ parsed !! "task" = Some task
    /\ parsed !! "time" = Some time_str
    /\ fromisoformat time_str = Some dt.

(** The acknowledgement the handler replies with. *)
Definition acknowledgement (task : string) (remind_time : datetime) : string :=
  "Got it! I'll remind you to " +:+ task +:+ " at " +:+ isoformat remind_time.

(** The job the handler registers for update [u] in world [w] when the
    chain extracted [task] and the timestamp parsed as [dt]. *)
Definition scheduled_job (w : world) (u : Update) (task : string)
    (dt : datetime) : Job :=
  {| job_id := next_id w; job_callback := cb_send_reminder;
     job_due := utc_instant (clock w)
                + (fire_instant dt - utc_instant (clock w));
     job_chat_id := effective_chat_id u; job_data := task |}.

(** The message [send_reminder] sends for a job. *)
Definition reminder_message (j : Job) : Z * string :=
  (job_chat_id j, "Reminder: " +:+ job_data j).

(** Registry invariant: identities of pending jobs are distinct and were
    all handed out already. *)
Definition wf (w : world) : Prop :=
  Forall (fun j => (job_id j < next_id w)%nat) (pending w)
  /\ NoDup (job_id <$> pending w).

(** A run reaches instant [i] when one of its ticks is at or after [i]. *)
Definition reaches (i : Z) (o : op) : Prop :=
  match o with
  | OpTick t => i <= utc_instant t
  | _ => False
  end.


(** What becomes of a pending job with identity [id] and due instant [due]
    in a run: the first tick that reaches [due] delivers it ([Some true]),
    the first cancellation of [id] releases it ([Some false]), whichever
    comes first; otherwise it is still pending ([None]). *)
Fixpoint fate (due : Z) (id : nat) (os : list op) : option bool :=
  match os with
  | [] => None
  | OpTick t :: os =>
      if decide (due <= utc_instant t) then Some true else fate due id os
  | OpCancel k :: os =>
      if decide (k = id) then Some false else fate due id os
  | OpMessage _ :: os => fate due id os
  end.

(** ** Start-up: [main] and the handler it registers *)

Module Startup.

(** [filters.TEXT], [filters.COMMAND] and the combinators [&] and [~]. *)
Inductive message_filter :=
| TEXT
| COMMAND
| filter_and (f g : message_filter)
| filter_not (f : message_filter).

(** The only callback [main] registers for messages. *)
Inductive handler_callback := cb_handle_message.

(** [MessageHandler(filters, callback)] *)
Record MessageHandler := mkMessageHandler {
  handler_filters : message_filter;
  handler_callback_of : handler_callback
}.

Record Application := mkApplication {
  app_token : string;
  app_handlers : list MessageHandler;
  app_polling : bool
}.

(** [ApplicationBuilder().token(token).build()] *)
Definition build (token : string) : Application :=
  {| app_token := token; app_handlers := []; app_polling := false |}.

(** [application.add_handler(handler)] *)
Definition add_handler (h : MessageHandler) (app : Application) : Application :=
  {| app_token := app_token app; app_handlers := app_handlers app ++ [h];
     app_polling := app_polling app |}.

(** [application.run_polling()] *)
Definition run_polling (app : Application) : Application :=
  {| app_token := app_token app; app_handlers := app_handlers app;
     app_polling := true |}.

(** What [main] comes to: the [RuntimeError] it raises, or the application
    it leaves polling. *)
Inductive started :=
| RuntimeError (msg : string)
| Polling (app : Application).

(** [main()], given the process environment. *)
Definition main (environ : gmap string string) : started :=
  let token := environ !! "TELEGRAM_BOT_TOKEN" in
  match token with
  | None | Some EmptyString =>
      RuntimeError "TELEGRAM_BOT_TOKEN environment variable not set"
  | Some token =>
      let application := build token in
      let application :=
        add_handler
          (mkMessageHandler (filter_and TEXT (filter_not COMMAND))
             cb_handle_message)
          application in
      Polling (run_polling application)
  end.

Section Dispatch.

Variable chain_invoke : string -> outcome (gmap string string).
Variable fromisoformat : string -> option datetime.

(** What the two base filters answer for an update is the transport's
    matter. *)
Variable is_text : Update -> bool.
Variable is_command : Update -> bool.

Fixpoint check_update (f : message_filter) (u : Update) : bool :=
  match f with
  | TEXT => is_text u
  | COMMAND => is_command u
  | filter_and f g => check_update f u && check_update g u
  | filter_not f => negb (check_update f u)
  end.

Definition run_handler (cb : handler_callback) (u : Update) : M unit :=
  match cb with
  | cb_handle_message => handle_message chain_invoke fromisoformat u
  end.

(** The dispatcher of the application (not part of the program's source):
    the first registered handler whose filters accept the update is
    called, and no other; what the handler raises is caught and logged by
    the dispatcher, which returns normally either way. *)
Fixpoint process_update (hs : list MessageHandler) (u : Update) : M unit :=
  match hs with
  | [] => ret tt
  | h :: hs =>
      if check_update (handler_filters h) u
      then fun w => (Returned tt, (run_handler (handler_callback_of h) u w).2)
      else process_update hs u
  end.

End Dispatch.

End Startup.

(** ** More notions for statements about runs *)

(** The chats the messages of a run came from. *)
Definition asked (os : list op) : list Z :=
  omap (fun o => match o with
                 | OpMessage u => Some (effective_chat_id u)
                 | _ => None
                 end) os.

Definition is_accepted (o : obs) : bool :=
  match o with
  | Handled (Returned _) => true
  | _ => false
  end.

Definition is_release (o : obs) : bool :=
  match o with
  | Cancelled _ true => true
  | _ => false
  end.

(** How many messages the handler accepted, and how many cancellations
    released a timer, according to a log. *)
Definition accepted (log : list obs) : nat :=
  length (List.filter is_accepted log).

Definition released (log : list obs) : nat :=
  length (List.filter is_release log).

(** * Properties *)

Example iso_sample :
  isoformat (Datetime (Civil 2024 1 2 14 0 0 0) (Some timezone_utc))
  = "2024-01-02T14:00:00+00:00".
Proof. reflexivity. Qed.

Example ordinal_sample : ymd2ord 2024 1 2 = 738887.
Proof. reflexivity. Qed.

(** ** Datetime arithmetic *)

Lemma datetime_sub_aware c1 o1 c2 o2 :
  datetime_sub (Datetime c1 (Some o1)) (Datetime c2 (Some o2))
  = Returned (instant c1 o1 - instant c2 o2).
Proof.
  unfold datetime_sub, instant, civil_micros, mk_timedelta; simpl.
  f_equal. ring.
Qed.

Lemma tag_utc_aware dt : tzinfo (tag_utc dt) = Some (default timezone_utc (tzinfo dt)).
Proof. unfold tag_utc. destruct (tzinfo dt) eqn:E; simpl; auto. Qed.

Lemma tag_utc_fields dt : fields (tag_utc dt) = fields dt.
Proof. unfold tag_utc. destruct (tzinfo dt); reflexivity. Qed.

Lemma fire_instant_eq dt :
  fire_instant dt = instant (fields dt) (default timezone_utc (tzinfo dt)).
Proof.
  unfold fire_instant, aware_instant.
  rewrite tag_utc_aware, tag_utc_fields. reflexivity.
Qed.

Lemma delay_of_tagged dt c :
  datetime_sub (tag_utc dt) (Datetime c (Some timezone_utc))
  = Returned (fire_instant dt - utc_instant c).
Proof.
  rewrite fire_instant_eq.
  destruct (tag_utc dt) as [f tz] eqn:E.
  pose proof (tag_utc_aware dt) as Ha. pose proof (tag_utc_fields dt) as Hf.
  rewrite E in Ha, Hf. simpl in Ha, Hf. subst.
  apply datetime_sub_aware.
Qed.

(** ** What one call of the handler does *)

Section HandlerFacts.

Variable chain_invoke : string -> outcome (gmap string string).
Variable fromisoformat : string -> option datetime.

Local Abbreviation handle := (handle_message chain_invoke fromisoformat).
Local Abbreviation extracted := (extracted chain_invoke fromisoformat).

Lemma handle_extracted u task dt w :
  extracted u task dt ->
  handle u w =
    (Returned tt,
     {| clock := clock w;
        pending := pending w ++ [scheduled_job w u task dt];
        next_id := S (next_id w);
        outbox := outbox w
                  ++ [Replied (effective_chat_id u)
                        (acknowledgement task (tag_utc dt))] |}).
Proof.
  intros (parsed & time_str & Hc & Ht & Hs & Hp).
  unfold handle_message, bind, lift, getitem, datetime_fromisoformat,
    datetime_now_utc.
  rewrite Hc, Ht. cbn. rewrite Hs. cbn. rewrite Hp. cbn.
  rewrite delay_of_tagged. reflexivity.
Qed.

(** Every call either raises and leaves the world as it was, or
    registers exactly the job above. *)
Lemma handle_cases u w :
  (exists e, handle u w = (Raised e, w))
  \/ (exists task dt, extracted u task dt).
Proof.
  unfold handle_message, bind, lift, getitem, datetime_fromisoformat,
    extracted.
  destruct (chain_invoke (message_text u)) as [parsed|e] eqn:Hc;
    [|left; eauto].
  destruct (parsed !! "task") as [task|] eqn:Ht; cbn; [|left; eauto].
  destruct (parsed !! "time") as [time_str|] eqn:Hs; cbn; [|left; eauto].
  destruct (fromisoformat time_str) as [dt|] eqn:Hp; cbn; [|left; eauto].
  right. exists task, dt, parsed, time_str. auto.
Qed.

End HandlerFacts.

(** ** The registry *)

Lemma ids_filter (P : Job -> Prop) `{!forall j, Decision (P j)}
    (l : list Job) (i : nat) :
  i ∈ job_id <$> filter P l -> i ∈ job_id <$> l.
Proof.
  rewrite !list_elem_of_fmap. intros (j & -> & Hj).
  apply list_elem_of_filter in Hj as [_ Hj]. eauto.
Qed.

Lemma NoDup_ids_filter (P : Job -> Prop) `{!forall j, Decision (P j)}
    (l : list Job) :
  NoDup (job_id <$> l) -> NoDup (job_id <$> filter P l).
Proof.
  intros Hnd. eapply sublist_NoDup; [exact Hnd|].
  apply fmap_sublist, sublist_filter.
Qed.

Lemma filter_id_absent (l : list Job) (i : nat) :
  i ∉ job_id <$> l -> filter (fun x => job_id x = i) l = [].
Proof.
  induction l as [|x l IH]; [reflexivity|].
  rewrite fmap_cons, not_elem_of_cons. intros [Hne Hl].
  rewrite filter_cons_False by congruence. auto.
Qed.

Lemma filter_id_unique (l : list Job) (j : Job) :
  NoDup (job_id <$> l) -> j ∈ l ->
  filter (fun x => job_id x = job_id j) l = [j].
Proof.
  induction l as [|x l IH]; intros Hnd Hj.
  - inversion Hj.
  - rewrite fmap_cons in Hnd. apply NoDup_cons in Hnd as [Hx Hnd].
    apply elem_of_cons in Hj as [->|Hj].
    + rewrite filter_cons_True by reflexivity.
      rewrite filter_id_absent by assumption. reflexivity.
    + rewrite filter_cons_False; [auto|].
      intros Heq. apply Hx. rewrite Heq.
      apply list_elem_of_fmap_2. assumption.
Qed.

Lemma fired_of_app i l1 l2 : fired_of i (l1 ++ l2) = fired_of i l1 ++ fired_of i l2.
Proof. apply List.filter_app. Qed.

Lemma released_of_app i l1 l2 :
  released_of i (l1 ++ l2) = released_of i l1 ++ released_of i l2.
Proof. apply List.filter_app. Qed.

Lemma fired_of_Fired i (js : list Job) :
  fired_of i (Fired <$> js) = Fired <$> filter (fun x => job_id x = i) js.
Proof.
  induction js as [|j js IH]; [reflexivity|].
  rewrite fmap_cons. unfold fired_of in *. cbn [List.filter is_fired].
  destruct (decide (job_id j = i)) as [Heq|Hne].
  - rewrite filter_cons_True by assumption.
    rewrite bool_decide_eq_true_2 by assumption.
    rewrite fmap_cons, IH. reflexivity.
  - rewrite filter_cons_False by assumption.
    rewrite bool_decide_eq_false_2 by assumption. exact IH.
Qed.

Lemma released_of_Fired i (js : list Job) : released_of i (Fired <$> js) = [].
Proof. induction js; [reflexivity|]. rewrite fmap_cons. assumption. Qed.

Lemma run_jobs_eq js w :
  run_jobs js w =
  {| clock := clock w; pending := pending w; next_id := next_id w;
     outbox := outbox w
               ++ ((fun j => Sent (job_chat_id j) ("Reminder: " +:+ job_data j))
                     <$> js) |}.
Proof.
  revert w. induction js as [|j js IH]; intros w.
  - cbn. rewrite app_nil_r. destruct w; reflexivity.
  - cbn [run_jobs]. rewrite IH. unfold run_callback.
    destruct (job_callback j). cbn. rewrite <- app_assoc. reflexivity.
Qed.

Lemma tick_eq t w :
  tick t w =
  (filter (JobQueue.is_due (utc_instant t)) (pending w),
   {| clock := t;
      pending := filter (fun j => ¬ JobQueue.is_due (utc_instant t) j) (pending w);
      next_id := next_id w;
      outbox := outbox w
                ++ ((fun j => Sent (job_chat_id j) ("Reminder: " +:+ job_data j))
                      <$> filter (JobQueue.is_due (utc_instant t)) (pending w)) |}).
Proof. unfold tick. rewrite run_jobs_eq. reflexivity. Qed.

Lemma wf_filter (P : Job -> Prop) `{!forall j, Decision (P j)} w w' :
  pending w' = filter P (pending w) -> next_id w' = next_id w ->
  wf w -> wf w'.
Proof.
  unfold wf. intros -> ->. intros [Hlt Hnd]. split.
  - rewrite Forall_forall in *. intros j Hj.
    apply list_elem_of_filter in Hj as [_ Hj]. auto.
  - apply NoDup_ids_filter; assumption.
Qed.

Lemma wf_register w w' j :
  pending w' = pending w ++ [j] -> next_id w' = S (next_id w) ->
  job_id j = next_id w ->
  wf w -> wf w'.
Proof.
  unfold wf. intros -> -> Hid [Hlt Hnd]. split.
  - apply Forall_app. split.
    + eapply Forall_impl; [exact Hlt|]. cbn. lia.
    + apply Forall_singleton. lia.
  - rewrite fmap_app. apply NoDup_app. split; [assumption|]. split.
    + intros i Hi. cbn. rewrite list_elem_of_singleton. intros ->.
      apply list_elem_of_fmap in Hi as (x & Hx & Hin).
      rewrite Forall_forall in Hlt. specialize (Hlt _ Hin). lia.
    + cbn. apply NoDup_singleton.
Qed.

Lemma wf_fresh w : wf w -> next_id w ∉ job_id <$> pending w.
Proof.
  intros [Hlt _] Hin. apply list_elem_of_fmap in Hin as (x & Hx & Hin).
  rewrite Forall_forall in Hlt. specialize (Hlt _ Hin). lia.
Qed.

Lemma same_id_same_job (l : list Job) (x j : Job) :
  NoDup (job_id <$> l) -> x ∈ l -> j ∈ l -> job_id x = job_id j -> x = j.
Proof.
  intros Hnd Hx Hj Heq.
  assert (Hin : x ∈ filter (fun y => job_id y = job_id j) l)
    by (apply list_elem_of_filter; auto).
  rewrite (filter_id_unique l j Hnd Hj) in Hin.
  apply list_elem_of_singleton in Hin. exact Hin.
Qed.

Lemma wf_initial c : wf (initial_world c).
Proof. split; cbn; [constructor | constructor]. Qed.

(** ** One step of a run *)

Section RunFacts.

Variable chain_invoke : string -> outcome (gmap string string).
Variable fromisoformat : string -> option datetime.

Local Abbreviation handle := (handle_message chain_invoke fromisoformat).
Local Abbreviation step := (run_op chain_invoke fromisoformat).
Local Abbreviation run := (run_ops chain_invoke fromisoformat).

(** A message either changes nothing or appends one job with the next
    identity. *)
Lemma step_message u w :
  (exists e, step (OpMessage u) w = ([Handled (Raised e)], w))
  \/ (exists j w',
        step (OpMessage u) w = ([Handled (Returned tt)], w')
        /\ pending w' = pending w ++ [j]
        /\ next_id w' = S (next_id w)
        /\ job_id j = next_id w).
Proof.
  destruct (handle_cases chain_invoke fromisoformat u w)
    as [[e He]|(task & dt & Hx)]; unfold run_op.
  - left. exists e. rewrite He. reflexivity.
  - right. rewrite (handle_extracted _ _ _ _ _ w Hx).
    eexists _, _. split; [reflexivity|]. cbn. auto.
Qed.

Lemma step_tick t w :
  step (OpTick t) w = (Fired <$> (tick t w).1, (tick t w).2).
Proof. unfold run_op. destruct (tick t w). reflexivity. Qed.

Lemma step_cancel k w :
  step (OpCancel k) w =
  ([Cancelled k (bool_decide (k ∈ job_id <$> pending w))],
   (JobQueue.cancel k w).2).
Proof. reflexivity. Qed.

Lemma step_wf o w : wf w -> wf (step o w).2.
Proof.
  intros Hwf. destruct o as [u|t|k].
  - destruct (step_message u w) as [[e ->]|(j & w' & -> & Hp & Hn & Hj)];
      cbn; [assumption|].
    eapply wf_register; eauto.
  - rewrite step_tick, tick_eq. cbn.
    eapply wf_filter; [| |exact Hwf]; reflexivity.
  - rewrite step_cancel. cbn.
    eapply wf_filter; [| |exact Hwf]; reflexivity.
Qed.

Lemma step_next_id o w : (next_id w <= next_id (step o w).2)%nat.
Proof.
  destruct o as [u|t|k].
  - destruct (step_message u w) as [[e ->]|(j & w' & -> & Hp & Hn & Hj)];
      cbn; lia.
  - rewrite step_tick, tick_eq. cbn. lia.
  - rewrite step_cancel. cbn. lia.
Qed.

(** An identity that was handed out and is no longer pending never shows
    up again. *)
Lemma step_gone o w i :
  wf w -> i ∉ job_id <$> pending w -> (i < next_id w)%nat ->
  fired_of i (step o w).1 = []
  /\ released_of i (step o w).1 = []
  /\ i ∉ job_id <$> pending (step o w).2.
Proof.
  intros Hwf Hi Hlt. destruct o as [u|t|k].
  - destruct (step_message u w) as [[e ->]|(j & w' & -> & Hp & Hn & Hj)];
      cbn; [auto|].
    split; [reflexivity|]. split; [reflexivity|].
    rewrite Hp, fmap_app. apply not_elem_of_app. split; [assumption|].
    cbn. rewrite list_elem_of_singleton. lia.
  - rewrite step_tick, tick_eq. cbn [fst snd pending].
    rewrite fired_of_Fired, released_of_Fired.
    rewrite filter_id_absent by (intros H; apply Hi; eapply ids_filter, H).
    split; [reflexivity|]. split; [reflexivity|].
    intros H; apply Hi; eapply ids_filter, H.
  - rewrite step_cancel. cbn.
    split; [reflexivity|]. split.
    + unfold released_of. cbn.
      destruct (decide (k = i)) as [->|Hne].
      * rewrite bool_decide_eq_false_2 by assumption. reflexivity.
      * destruct (bool_decide (k ∈ job_id <$> pending w)); [|reflexivity].
        rewrite bool_decide_eq_false_2 by assumption. reflexivity.
    + intros H; apply Hi; eapply ids_filter, H.
Qed.

(** A pending job survives a step untouched, or is delivered by it, or is
    released by it. *)
Lemma step_pending o w j :
  wf w -> j ∈ pending w ->
  (fate (job_due j) (job_id j) [o] = None
   /\ j ∈ pending (step o w).2
   /\ fired_of (job_id j) (step o w).1 = []
   /\ released_of (job_id j) (step o w).1 = [])
  \/ (fate (job_due j) (job_id j) [o] = Some true
      /\ (job_id j ∉ job_id <$> pending (step o w).2)
      /\ fired_of (job_id j) (step o w).1 = [Fired j]
      /\ released_of (job_id j) (step o w).1 = [])
  \/ (fate (job_due j) (job_id j) [o] = Some false
      /\ (job_id j ∉ job_id <$> pending (step o w).2)
      /\ fired_of (job_id j) (step o w).1 = []
      /\ released_of (job_id j) (step o w).1 = [Cancelled (job_id j) true]).
Proof.
  intros Hwf Hj. pose proof Hwf as [Hlt Hnd].
  destruct o as [u|t|k]; cbn [fate].
  - left. split; [reflexivity|].
    destruct (step_message u w) as [[e ->]|(j' & w' & -> & Hp & Hn & Hj')];
      cbn; [auto|].
    rewrite Hp. split; [|auto]. apply elem_of_app. auto.
  - rewrite step_tick, tick_eq. cbn [fst snd pending].
    rewrite fired_of_Fired, released_of_Fired.
    destruct (decide (job_due j <= utc_instant t)) as [Hdue|Hnot].
    + right; left. split; [reflexivity|]. split; [|split; [|reflexivity]].
      * intros Hin. apply list_elem_of_fmap in Hin as (x & Hx & Hin).
        apply list_elem_of_filter in Hin as [Hnd' Hin].
        assert (x = j) by (eapply same_id_same_job; eauto). subst x.
        apply Hnd'. exact Hdue.
      * rewrite filter_id_unique; [reflexivity| |].
        -- apply NoDup_ids_filter; assumption.
        -- apply list_elem_of_filter. auto.
    + left. split; [reflexivity|]. split; [|split; [|reflexivity]].
      * apply list_elem_of_filter. auto.
      * rewrite filter_id_absent; [reflexivity|].
        intros Hin. apply list_elem_of_fmap in Hin as (x & Hx & Hin).
        apply list_elem_of_filter in Hin as [Hd Hin].
        assert (x = j) by (eapply same_id_same_job; eauto). subst x.
        apply Hnot. exact Hd.
  - rewrite step_cancel. cbn [fst snd JobQueue.cancel pending].
    destruct (decide (k = job_id j)) as [->|Hne].
    + right; right. split; [reflexivity|].
      rewrite bool_decide_eq_true_2 by (apply list_elem_of_fmap_2; assumption).
      split; [|split; [reflexivity|]].
      * intros Hin. apply list_elem_of_fmap in Hin as (x & Hx & Hin).
        apply list_elem_of_filter in Hin as [Hd Hin]. congruence.
      * unfold released_of. cbn.
        rewrite bool_decide_eq_true_2 by reflexivity. reflexivity.
    + left. split; [reflexivity|]. split; [|split; [reflexivity|]].
      * apply list_elem_of_filter. split; [congruence|assumption].
      * unfold released_of. cbn.
        destruct (bool_decide (k ∈ job_id <$> pending w)); [|reflexivity].
        rewrite bool_decide_eq_false_2 by assumption. reflexivity.
Qed.

End RunFacts.

(** ** Whole runs *)

Lemma fate_cons due id o os :
  fate due id (o :: os) =
  match fate due id [o] with
  | Some b => Some b
  | None => fate due id os
  end.
Proof.
  destruct o as [u|t|k]; cbn [fate]; [reflexivity| |].
  - destruct (decide (due <= utc_instant t)); reflexivity.
  - destruct (decide (k = id)); reflexivity.
Qed.



Lemma fate_not_reached due id os :
  Forall (fun o => ¬ reaches due o) os -> fate due id os ≠ Some true.
Proof.
  induction 1 as [|o os Ho _ IH]; [discriminate|].
  destruct o as [u|t|k]; cbn [fate]; [assumption| |].
  - rewrite decide_False by exact Ho. assumption.
  - destruct (decide (k = id)); [discriminate|assumption].
Qed.

Section RunTheorems.

Variable chain_invoke : string -> outcome (gmap string string).
Variable fromisoformat : string -> option datetime.

Local Abbreviation handle := (handle_message chain_invoke fromisoformat).
Local Abbreviation step := (run_op chain_invoke fromisoformat).
Local Abbreviation run := (run_ops chain_invoke fromisoformat).

Lemma run_cons o os w :
  run (o :: os) w =
  ((step o w).1 ++ (run os (step o w).2).1, (run os (step o w).2).2).
Proof.
  cbn [run_ops]. destruct (step o w) as [l1 w1]. cbn [fst snd].
  destruct (run os w1) as [l2 w2]. reflexivity.
Qed.

Lemma run_wf os w : wf w -> wf (run os w).2.
Proof.
  revert w. induction os as [|o os IH]; intros w Hwf; [exact Hwf|].
  rewrite run_cons. cbn. apply IH, step_wf, Hwf.
Qed.

Lemma run_next_id os w : (next_id w <= next_id (run os w).2)%nat.
Proof.
  revert w. induction os as [|o os IH]; intros w; [cbn; lia|].
  rewrite run_cons. cbn.
  pose proof (step_next_id chain_invoke fromisoformat o w).
  specialize (IH (step o w).2). lia.
Qed.

Lemma run_gone os w i :
  wf w -> i ∉ job_id <$> pending w -> (i < next_id w)%nat ->
  fired_of i (run os w).1 = [] /\ released_of i (run os w).1 = [].
Proof.
  revert w. induction os as [|o os IH]; intros w Hwf Hi Hlt; [auto|].
  rewrite run_cons. cbn [fst]. rewrite fired_of_app, released_of_app.
  destruct (step_gone chain_invoke fromisoformat o w i Hwf Hi Hlt)
    as (-> & -> & Hi').
  apply IH; [apply step_wf, Hwf|exact Hi'|].
  pose proof (step_next_id chain_invoke fromisoformat o w). lia.
Qed.

(** The callback of a pending job runs in a run exactly when a tick
    reaches its due instant before any cancellation of it, and then once;
    a cancellation releases it exactly when it comes first. *)
Lemma run_pending os w j :
  wf w -> j ∈ pending w ->
  fired_of (job_id j) (run os w).1
    = match fate (job_due j) (job_id j) os with
      | Some true => [Fired j]
      | _ => []
      end
  /\ released_of (job_id j) (run os w).1
    = match fate (job_due j) (job_id j) os with
      | Some false => [Cancelled (job_id j) true]
      | _ => []
      end.
Proof.
  revert w. induction os as [|o os IH]; intros w Hwf Hj; [auto|].
  rewrite run_cons, fate_cons. cbn [fst].
  rewrite fired_of_app, released_of_app.
  assert (Hlt : (job_id j < next_id (step o w).2)%nat).
  { destruct Hwf as [Hlt _]. rewrite Forall_forall in Hlt.
    specialize (Hlt _ Hj).
    pose proof (step_next_id chain_invoke fromisoformat o w). lia. }
  pose proof (step_wf chain_invoke fromisoformat o w Hwf) as Hwf'.
  destruct (step_pending chain_invoke fromisoformat o w j Hwf Hj)
    as [(-> & Hj' & -> & ->)|[(-> & Hg & -> & ->)|(-> & Hg & -> & ->)]].
  - apply IH; assumption.
  - destruct (run_gone os _ _ Hwf' Hg Hlt) as [-> ->]. auto.
  - destruct (run_gone os _ _ Hwf' Hg Hlt) as [-> ->]. auto.
Qed.

(** A reminder cancelled before any tick reaches its due instant is never
    delivered. *)
Lemma cancelled_before_due os w j :
  wf w -> j ∈ pending w ->
  Forall (fun o => ¬ reaches (job_due j) o) os ->
  deliveries (job_id j) (run os w).1 = 0%nat.
Proof.
  intros Hwf Hj Hnr. unfold deliveries.
  destruct (run_pending os w j Hwf Hj) as [-> _].
  pose proof (fate_not_reached (job_due j) (job_id j) os Hnr) as Hne.
  destruct (fate (job_due j) (job_id j) os) as [[|]|]; [congruence|auto..].
Qed.

Lemma sent_messages_app o1 o2 :
  sent_messages (o1 ++ o2) = sent_messages o1 ++ sent_messages o2.
Proof. apply omap_app. Qed.

Lemma sent_messages_reminders (js : list Job) :
  sent_messages ((fun j => Sent (job_chat_id j) ("Reminder: " +:+ job_data j))
                   <$> js)
  = reminder_message <$> js.
Proof. induction js as [|j js IH]; [reflexivity|]. cbn. f_equal. exact IH. Qed.

Lemma fired_jobs_Fired (js : list Job) : fired_jobs (Fired <$> js) = js.
Proof. induction js as [|j js IH]; [reflexivity|]. cbn. f_equal. exact IH. Qed.

(** What a run sends through [send_message] is exactly one reminder
    message per callback invocation, in order. *)
Lemma run_sent os w :
  sent_messages (outbox (run os w).2)
  = sent_messages (outbox w) ++ (reminder_message <$> fired_jobs (run os w).1).
Proof.
  revert w. induction os as [|o os IH]; intros w.
  - cbn. rewrite app_nil_r. reflexivity.
  - rewrite run_cons. cbn [fst snd]. rewrite IH.
    unfold fired_jobs. rewrite omap_app, fmap_app, app_assoc. f_equal.
    destruct o as [u|t|k].
    + destruct (handle_cases chain_invoke fromisoformat u w)
        as [[e He]|(task & dt & Hx)]; unfold run_op.
      * rewrite He. cbn. rewrite app_nil_r. reflexivity.
      * rewrite (handle_extracted _ _ _ _ _ w Hx). cbn [fst snd outbox].
        rewrite sent_messages_app. reflexivity.
    + rewrite step_tick, tick_eq. cbn [fst snd outbox].
      rewrite sent_messages_app, sent_messages_reminders.
      fold (fired_jobs (Fired <$> filter (JobQueue.is_due (utc_instant t))
                                    (pending w))).
      rewrite fired_jobs_Fired. reflexivity.
    + cbn. rewrite app_nil_r. reflexivity.
Qed.

End RunTheorems.

(** ** From a handled message to its delivery *)

Lemma scheduled_due w u task dt :
  job_due (scheduled_job w u task dt) = fire_instant dt.
Proof. cbn. lia. Qed.

Section Claims.

Variable chain_invoke : string -> outcome (gmap string string).
Variable fromisoformat : string -> option datetime.

Local Abbreviation handle := (handle_message chain_invoke fromisoformat).
Local Abbreviation step := (run_op chain_invoke fromisoformat).
Local Abbreviation run := (run_ops chain_invoke fromisoformat).
Local Abbreviation extracted := (extracted chain_invoke fromisoformat).

Lemma handled_world u task dt w :
  extracted u task dt ->
  (handle u w).1 = Returned tt
  /\ pending (handle u w).2 = pending w ++ [scheduled_job w u task dt]
  /\ next_id (handle u w).2 = S (next_id w)
  /\ clock (handle u w).2 = clock w
  /\ outbox (handle u w).2
     = outbox w ++ [Replied (effective_chat_id u)
                      (acknowledgement task (tag_utc dt))].
Proof.
  intros Hx. rewrite (handle_extracted _ _ _ _ _ w Hx). cbn. auto.
Qed.

Lemma handled_wf u w : wf w -> wf (handle u w).2.
Proof. intros Hwf. apply (step_wf chain_invoke fromisoformat (OpMessage u) w) in Hwf.
  unfold run_op in Hwf. destruct (handle u w). exact Hwf.
Qed.

Lemma handled_then_run u task dt w os :
  wf w -> extracted u task dt ->
  fired_of (next_id w) (run os (handle u w).2).1
    = match fate (fire_instant dt) (next_id w) os with
      | Some true => [Fired (scheduled_job w u task dt)]
      | _ => []
      end.
Proof.
  intros Hwf Hx.
  destruct (handled_world u task dt w Hx) as (_ & Hp & _).
  pose proof (handled_wf u w Hwf) as Hwf1.
  assert (Hin : scheduled_job w u task dt ∈ pending (handle u w).2).
  { rewrite Hp. apply elem_of_app. right. apply list_elem_of_singleton.
    reflexivity. }
  destruct (run_pending chain_invoke fromisoformat os _ _ Hwf1 Hin) as [Hf _].
  rewrite scheduled_due in Hf. exact Hf.
Qed.



(** C3 (as the code has it): when the timestamp the chain returned does not
    parse, the handler raises [ValueError] on that string; the exception
    leaves the handler, the world is untouched: no job is registered for
    any instant and nothing is sent. *)
Theorem malformed_timestamp_raises u w parsed task time_str :
  chain_invoke (message_text u) = Returned parsed ->
  parsed !! "task" = Some task ->
  parsed !! "time" = Some time_str ->
  fromisoformat time_str = None ->
  handle_message chain_invoke fromisoformat u w
  = (Raised (ValueError time_str), w).
Proof.
  intros Hc Ht Hs Hp.
  unfold handle_message, bind, lift, getitem, datetime_fromisoformat.
  rewrite Hc, Ht. cbn. rewrite Hs. cbn. rewrite Hp. reflexivity.
Qed.

(** C4 (as the code has it): the handler does not look at the task; when
    the extracted task is empty or whitespace only and the timestamp
    parses, the handler returns normally and registers a reminder that
    carries this task unchanged. *)
Theorem blank_task_is_scheduled u task dt w :
  extracted u task dt ->
  whitespace_only task = true ->
  (handle u w).1 = Returned tt
  /\ pending (handle u w).2 = pending w ++ [scheduled_job w u task dt]
  /\ job_data (scheduled_job w u task dt) = task.
Proof.
  intros Hx _. destruct (handled_world u task dt w Hx) as (Hr & Hp & _).
  auto.
Qed.

(** C5: a parsed timestamp without an offset is tagged with UTC, its
    wall-clock fields unchanged, before the delay is computed: the
    registered job is due at the instant those fields denote in UTC, and
    the acknowledgement shows the tagged value. *)
Theorem naive_timestamp_is_utc u task dt w :
  extracted u task dt ->
  tzinfo dt = None ->
  tag_utc dt = Datetime (fields dt) (Some timezone_utc)
  /\ datetime_sub (tag_utc dt) (Datetime (clock w) (Some timezone_utc))
     = Returned (utc_instant (fields dt) - utc_instant (clock w))
  /\ pending (handle u w).2 = pending w ++ [scheduled_job w u task dt]
  /\ job_due (scheduled_job w u task dt) = utc_instant (fields dt)
  /\ outbox (handle u w).2
     = outbox w ++ [Replied (effective_chat_id u)
                      (acknowledgement task
                         (Datetime (fields dt) (Some timezone_utc)))].
Proof.
  intros Hx Hnaive.
  assert (Htag : tag_utc dt = Datetime (fields dt) (Some timezone_utc)).
  { unfold tag_utc. rewrite Hnaive. reflexivity. }
  assert (Hfire : fire_instant dt = utc_instant (fields dt)).
  { rewrite fire_instant_eq, Hnaive. reflexivity. }
  destruct (handled_world u task dt w Hx) as (_ & Hp & _ & _ & Ho).
  split; [exact Htag|]. split.
  { rewrite delay_of_tagged, Hfire. reflexivity. }
  split; [exact Hp|]. split.
  { rewrite scheduled_due. exact Hfire. }
  rewrite Ho, Htag. reflexivity.
Qed.

(** C6 (as the code has it): when the computed delay is zero or negative
    the handler hands it to the queue as it is, without clamping, and does
    not reject the request: it returns normally, registers the job and
    acknowledges; the job is due at the fire instant itself, which lies at
    or before the current instant. *)
Theorem past_due_handed_over_unclamped u task dt w :
  extracted u task dt ->
  fire_instant dt - utc_instant (clock w) <= 0 ->
  datetime_sub (tag_utc dt) (Datetime (clock w) (Some timezone_utc))
    = Returned (fire_instant dt - utc_instant (clock w))
  /\ (handle u w).1 = Returned tt
  /\ pending (handle u w).2 = pending w ++ [scheduled_job w u task dt]
  /\ job_due (scheduled_job w u task dt)
     = utc_instant (clock w) + (fire_instant dt - utc_instant (clock w))
  /\ job_due (scheduled_job w u task dt) <= utc_instant (clock w)
  /\ outbox (handle u w).2
     = outbox w ++ [Replied (effective_chat_id u)
                      (acknowledgement task (tag_utc dt))].
Proof.
  intros Hx Hpast.
  destruct (handled_world u task dt w Hx) as (Hr & Hp & _ & _ & Ho).
  split; [apply delay_of_tagged|]. split; [exact Hr|].
  split; [exact Hp|]. split; [reflexivity|].
  split; [rewrite scheduled_due; lia|exact Ho].
Qed.

(** C7: a timestamp with an explicit offset and the naive timestamp that
    reads the same instant on the UTC wall clock give the same fire
    instant: the two tagged values are equal as aware datetimes, and the
    two registered jobs are due at the same instant. *)
Theorem offset_and_naive_agree u1 u2 task1 task2 dt_off dt_naive off w1 w2 :
  extracted u1 task1 dt_off ->
  extracted u2 task2 dt_naive ->
  tzinfo dt_off = Some off ->
  tzinfo dt_naive = None ->
  civil_micros (fields dt_naive) = civil_micros (fields dt_off) - off ->
  aware_eqb (tag_utc dt_off) (tag_utc dt_naive) = true
  /\ fire_instant dt_off = fire_instant dt_naive
  /\ (exists j1 j2,
        pending (handle u1 w1).2 = pending w1 ++ [j1]
        /\ pending (handle u2 w2).2 = pending w2 ++ [j2]
        /\ job_due j1 = job_due j2).
Proof.
  intros Hx1 Hx2 Hoff Hnaive Hconv.
  assert (Hfire : fire_instant dt_off = fire_instant dt_naive).
  { rewrite !fire_instant_eq, Hoff, Hnaive. unfold instant. cbn.
    unfold timezone_utc. lia. }
  split; [|split; [exact Hfire|]].
  - destruct dt_off as [c1 tz1], dt_naive as [c2 tz2].
    cbn [tzinfo fields] in Hoff, Hnaive, Hconv. subst tz1 tz2.
    unfold aware_eqb, tag_utc, replace_tzinfo. cbn [tzinfo fields].
    rewrite datetime_sub_aware.
    unfold instant, timezone_utc. apply Z.eqb_eq. lia.
  - exists (scheduled_job w1 u1 task1 dt_off),
           (scheduled_job w2 u2 task2 dt_naive).
    destruct (handled_world u1 task1 dt_off w1 Hx1) as (_ & Hp1 & _).
    destruct (handled_world u2 task2 dt_naive w2 Hx2) as (_ & Hp2 & _).
    rewrite !scheduled_due. auto.
Qed.

(** C8: in the timer registry every [run_once] returns a job whose
    identity differs from that of every job pending at the time and from
    the identity any later [run_once] returns, whatever runs in between;
    and the identity serves to cancel: in every run in which a
    cancellation of it comes before a tick reaching the due instant, the
    cancellation releases the timer and the callback never runs. *)
Theorem schedule_ids_unique cb when chat data w :
  wf w ->
  exists j w1,
    JobQueue.run_once cb when chat data w = (Returned j, w1)
    /\ (job_id j ∉ job_id <$> pending w)
    /\ (forall os cb' when' chat' data' j' w2,
          JobQueue.run_once cb' when' chat' data' (run os w1).2
            = (Returned j', w2) ->
          job_id j' <> job_id j)
    /\ (forall os,
          fate (job_due j) (job_id j) os = Some false ->
          released_of (job_id j) (run os w1).1 = [Cancelled (job_id j) true]
          /\ fired_of (job_id j) (run os w1).1 = []).
Proof.
  intros Hwf.
  set (j := {| job_id := next_id w; job_callback := cb;
               job_due := utc_instant (clock w) + when;
               job_chat_id := chat; job_data := data |}).
  set (w1 := {| clock := clock w; pending := pending w ++ [j];
                next_id := S (next_id w); outbox := outbox w |}).
  exists j, w1. split; [reflexivity|].
  split; [apply wf_fresh, Hwf|]. split.
  - intros os cb' when' chat' data' j' w2 Hrun.
    unfold JobQueue.run_once in Hrun. inversion Hrun; subst j'.
    cbn [job_id j].
    pose proof (run_next_id chain_invoke fromisoformat os w1) as Hle.
    change (next_id w1) with (S (next_id w)) in Hle. lia.
  - intros os Hfate.
    assert (Hwf1 : wf w1)
      by (apply (wf_register w w1 j); [reflexivity..|exact Hwf]).
    assert (Hin : j ∈ pending w1).
    { apply elem_of_app. right. apply list_elem_of_singleton. reflexivity. }
    destruct (run_pending chain_invoke fromisoformat os w1 j Hwf1 Hin)
      as [Hf Hr].
    rewrite Hfate in Hf, Hr. auto.
Qed.

(** C9: whenever the callback runs for the reminder a handled message
    created, the job it receives carries the chat identifier of that
    message, and [send_reminder] addresses its message to that chat. *)
Theorem reminder_goes_to_origin u task dt w os j :
  wf w ->
  extracted u task dt ->
  In (Fired j) (run os (handle u w).2).1 ->
  job_id j = next_id w ->
  job_chat_id j = effective_chat_id u
  /\ (forall w',
        outbox (send_reminder j w').2
        = outbox w' ++ [Sent (effective_chat_id u) ("Reminder: " +:+ task)]).
Proof.
  intros Hwf Hx Hin Hid.
  assert (Hf : In (Fired j) (fired_of (next_id w) (run os (handle u w).2).1)).
  { apply List.filter_In. split; [exact Hin|]. cbn.
    apply bool_decide_eq_true_2. exact Hid. }
  rewrite (handled_then_run u task dt w os Hwf Hx) in Hf.
  destruct (fate (fire_instant dt) (next_id w) os) as [[|]|];
    cbn in Hf; try contradiction.
  destruct Hf as [Hf|[]]. inversion Hf; subst j. cbn. auto.
Qed.

(** C10: a tick sends, for each job that fires, exactly the text
    [Reminder: ] followed by the job's data, and nothing else; for the
    reminder a handled message created, the data is the extracted task, so
    once its fire instant is reached the message sent to its chat is
    [Reminder: ] followed by the task. *)
Theorem reminder_text_is_prefixed u task dt w t :
  extracted u task dt ->
  fire_instant dt <= utc_instant t ->
  outbox (tick t (handle u w).2).2
    = outbox (handle u w).2
      ++ ((fun j => Sent (job_chat_id j) ("Reminder: " +:+ job_data j))
            <$> (tick t (handle u w).2).1)
  /\ scheduled_job w u task dt ∈ (tick t (handle u w).2).1
  /\ job_data (scheduled_job w u task dt) = task
  /\ Sent (effective_chat_id u) ("Reminder: " +:+ task)
       ∈ outbox (tick t (handle u w).2).2.
Proof.
  intros Hx Hreach.
  destruct (handled_world u task dt w Hx) as (_ & Hp & _).
  rewrite tick_eq. cbn [fst snd outbox].
  assert (Hin : scheduled_job w u task dt
                ∈ filter (JobQueue.is_due (utc_instant t))
                    (pending (handle u w).2)).
  { apply list_elem_of_filter. split.
    - unfold JobQueue.is_due. rewrite scheduled_due. exact Hreach.
    - rewrite Hp. apply elem_of_app. right. apply list_elem_of_singleton.
      reflexivity. }
  split; [reflexivity|]. split; [exact Hin|]. split; [reflexivity|].
  apply elem_of_app. right.
  apply (list_elem_of_fmap_2
           (fun j => Sent (job_chat_id j) ("Reminder: " +:+ job_data j)))
    in Hin.
  exact Hin.
Qed.

End Claims.

(** ** The model at work *)

Import Sample.

Lemma sam_extracted :
  extracted sam_chain iso_extended sam "call Sam" sam_time.
Proof.
  exists (<["task" := "call Sam"]> (<["time" := "2024-01-02T14:00:00Z"]> ∅)),
         "2024-01-02T14:00:00Z".
  repeat split; vm_compute; reflexivity.
Defined.

Lemma late_extracted :
  extracted late_chain iso_extended sam "call Sam" late_time.
Proof.
  exists (<["task" := "call Sam"]> (<["time" := "2023-01-02T14:00:00Z"]> ∅)),
         "2023-01-02T14:00:00Z".
  repeat split; vm_compute; reflexivity.
Defined.

(** The scenario of the spec: the timer is armed for exactly 38 hours. *)
Example sam_delay :
  datetime_sub (tag_utc sam_time) (Datetime (clock w0) (Some timezone_utc))
  = Returned (38 * td_hour).
Proof. reflexivity. Qed.

Example sam_run :
  run_ops sam_chain iso_extended
    [OpMessage sam; OpTick two_pm_next_day; OpTick two_pm_next_day] w0
  = ([Handled (Returned tt); Fired (scheduled_job w0 sam "call Sam" sam_time)],
     {| clock := two_pm_next_day; pending := []; next_id := 1%nat;
        outbox :=
          [Replied 4242
             "Got it! I'll remind you to call Sam at 2024-01-02T14:00:00+00:00";
           Sent 4242 "Reminder: call Sam"] |}).
Proof. vm_compute. reflexivity. Qed.

(** The two timestamps of C7 denote one instant, yet the handler keeps the
    offset it was given, as the acknowledgement shows. *)
Example offset_kept_in_acknowledgement :
  isoformat (tag_utc offset_time) = "2024-01-02T16:00:00+02:00"
  /\ isoformat (tag_utc naive_time) = "2024-01-02T14:00:00+00:00".
Proof. split; reflexivity. Qed.



(** C3, as stated, fails: on ["not-a-date"] the handler does not return an
    error value, it raises. *)
Lemma malformed_timestamp_not_returned :
  (handle_message (stub_chain "call Sam" "not-a-date") iso_extended sam w0).1
    = Raised (ValueError "not-a-date")
  /\ ¬ (exists v : unit,
          (handle_message (stub_chain "call Sam" "not-a-date")
             iso_extended sam w0).1 = Returned v).
Proof.
  split; [vm_compute; reflexivity|].
  intros [v Hv]. vm_compute in Hv. discriminate.
Qed.

Lemma malformed_timestamp_raises_witness :
  iso_extended "not-a-date" = None
  /\ handle_message (stub_chain "call Sam" "not-a-date") iso_extended sam w0
     = (Raised (ValueError "not-a-date"), w0).
Proof.
  split; [reflexivity|].
  apply (malformed_timestamp_raises (stub_chain "call Sam" "not-a-date")
           iso_extended sam w0
           (<["task" := "call Sam"]> (<["time" := "not-a-date"]> ∅))
           "call Sam" "not-a-date");
    vm_compute; reflexivity.
Defined.

(** C4, as stated, fails: a whitespace-only task is not rejected, it is
    acknowledged and stored. *)
Lemma blank_task_not_rejected :
  whitespace_only " " = true
  /\ (handle_message (stub_chain " " "2024-01-02T14:00:00Z")
        iso_extended sam w0).1 = Returned tt
  /\ job_data <$> pending (handle_message (stub_chain " " "2024-01-02T14:00:00Z")
                             iso_extended sam w0).2 = [" "].
Proof. repeat split; vm_compute; reflexivity. Qed.

Lemma blank_task_is_scheduled_witness :
  whitespace_only " " = true
  /\ (handle_message (stub_chain " " "2024-01-02T14:00:00Z")
        iso_extended sam w0).1 = Returned tt
  /\ pending (handle_message (stub_chain " " "2024-01-02T14:00:00Z")
                iso_extended sam w0).2
     = pending w0 ++ [scheduled_job w0 sam " " sam_time].
Proof.
  assert (Hx : extracted (stub_chain " " "2024-01-02T14:00:00Z") iso_extended
                 sam " " sam_time).
  { exists (<["task" := " "]> (<["time" := "2024-01-02T14:00:00Z"]> ∅)),
           "2024-01-02T14:00:00Z".
    repeat split; vm_compute; reflexivity. }
  destruct (blank_task_is_scheduled (stub_chain " " "2024-01-02T14:00:00Z")
              iso_extended sam " " sam_time w0 Hx eq_refl) as (Hr & Hp & _).
  exact (conj eq_refl (conj Hr Hp)).
Defined.

Lemma naive_timestamp_is_utc_witness :
  extracted (stub_chain "call Sam" "2024-01-02T14:00:00") iso_extended
    sam "call Sam" naive_time
  /\ tzinfo naive_time = None
  /\ tag_utc naive_time = sam_time
  /\ job_due (scheduled_job w0 sam "call Sam" naive_time)
     = utc_instant two_pm_next_day.
Proof.
  assert (Hx : extracted (stub_chain "call Sam" "2024-01-02T14:00:00")
                 iso_extended sam "call Sam" naive_time).
  { exists (<["task" := "call Sam"]> (<["time" := "2024-01-02T14:00:00"]> ∅)),
           "2024-01-02T14:00:00".
    repeat split; vm_compute; reflexivity. }
  destruct (naive_timestamp_is_utc
              (stub_chain "call Sam" "2024-01-02T14:00:00") iso_extended
              sam "call Sam" naive_time w0 Hx eq_refl)
    as (Ht & _ & _ & Hd & _).
  exact (conj Hx (conj eq_refl (conj Ht Hd))).
Defined.

(** C6, as stated, fails: for a moment that has passed, the delay the
    handler hands to the queue is negative, not zero, and the job is due
    that much before the current instant. *)
Lemma past_delay_not_clamped :
  datetime_sub (tag_utc late_time) (Datetime (clock w0) (Some timezone_utc))
    = Returned (-31399200000000)
  /\ job_due <$> pending (handle_message late_chain iso_extended sam w0).2
     = [utc_instant (clock w0) + -31399200000000]
  /\ job_due <$> pending (handle_message late_chain iso_extended sam w0).2
     <> [utc_instant (clock w0) + 0].
Proof.
  split; [reflexivity|]. split; [vm_compute; reflexivity|].
  vm_compute. discriminate.
Qed.

Lemma past_due_handed_over_unclamped_witness :
  extracted late_chain iso_extended sam "call Sam" late_time
  /\ fire_instant late_time - utc_instant (clock w0) <= 0
  /\ (handle_message late_chain iso_extended sam w0).1 = Returned tt
  /\ pending (handle_message late_chain iso_extended sam w0).2
     = pending w0 ++ [scheduled_job w0 sam "call Sam" late_time]
  /\ job_due (scheduled_job w0 sam "call Sam" late_time)
     <= utc_instant (clock w0).
Proof.
  assert (Hpast : fire_instant late_time - utc_instant (clock w0) <= 0)
    by (vm_compute; discriminate).
  destruct (past_due_handed_over_unclamped late_chain iso_extended sam
              "call Sam" late_time w0 late_extracted Hpast)
    as (_ & Hr & Hp & _ & Hd & _).
  exact (conj late_extracted (conj Hpast (conj Hr (conj Hp Hd)))).
Defined.

Lemma offset_and_naive_agree_witness :
  extracted (echo_chain "call Sam") iso_extended
    (mkUpdate "2024-01-02T16:00:00+02:00" 1) "call Sam" offset_time
  /\ extracted (echo_chain "call Sam") iso_extended
       (mkUpdate "2024-01-02T14:00:00" 2) "call Sam" naive_time
  /\ civil_micros (fields naive_time)
     = civil_micros (fields offset_time) - 2 * td_hour
  /\ aware_eqb (tag_utc offset_time) (tag_utc naive_time) = true
  /\ fire_instant offset_time = fire_instant naive_time.
Proof.
  assert (Hx1 : extracted (echo_chain "call Sam") iso_extended
                  (mkUpdate "2024-01-02T16:00:00+02:00" 1) "call Sam"
                  offset_time).
  { exists (<["task" := "call Sam"]>
              (<["time" := "2024-01-02T16:00:00+02:00"]> ∅)),
           "2024-01-02T16:00:00+02:00".
    repeat split; vm_compute; reflexivity. }
  assert (Hx2 : extracted (echo_chain "call Sam") iso_extended
                  (mkUpdate "2024-01-02T14:00:00" 2) "call Sam" naive_time).
  { exists (<["task" := "call Sam"]> (<["time" := "2024-01-02T14:00:00"]> ∅)),
           "2024-01-02T14:00:00".
    repeat split; vm_compute; reflexivity. }
  assert (Hconv : civil_micros (fields naive_time)
                  = civil_micros (fields offset_time) - 2 * td_hour)
    by reflexivity.
  destruct (offset_and_naive_agree (echo_chain "call Sam") iso_extended
              _ _ _ _ _ _ (2 * td_hour) w0 w0 Hx1 Hx2 eq_refl eq_refl Hconv)
    as (Heq & Hfire & _).
  exact (conj Hx1 (conj Hx2 (conj Hconv (conj Heq Hfire)))).
Defined.

Lemma schedule_ids_unique_witness :
  wf w0
  /\ exists j w1,
       JobQueue.run_once cb_send_reminder (38 * td_hour) 4242 "call Sam" w0
         = (Returned j, w1)
       /\ (forall os j' w2,
             JobQueue.run_once cb_send_reminder 0 7 "tea"
               (run_ops sam_chain iso_extended os w1).2 = (Returned j', w2) ->
             job_id j' <> job_id j).
Proof.
  assert (Hwf : wf w0) by apply wf_initial.
  split; [exact Hwf|].
  destruct (schedule_ids_unique sam_chain iso_extended cb_send_reminder
              (38 * td_hour) 4242 "call Sam" w0 Hwf)
    as (j & w1 & Hrun & _ & Hlater & _).
  exists j, w1. split; [exact Hrun|].
  intros os j' w2. apply Hlater.
Defined.

Lemma reminder_goes_to_origin_witness :
  wf w0
  /\ extracted sam_chain iso_extended sam "call Sam" sam_time
  /\ In (Fired (scheduled_job w0 sam "call Sam" sam_time))
       (run_ops sam_chain iso_extended [OpTick two_pm_next_day]
          (handle_message sam_chain iso_extended sam w0).2).1
  /\ job_id (scheduled_job w0 sam "call Sam" sam_time) = next_id w0
  /\ job_chat_id (scheduled_job w0 sam "call Sam" sam_time) = 4242.
Proof.
  assert (Hwf : wf w0) by apply wf_initial.
  assert (Hin : In (Fired (scheduled_job w0 sam "call Sam" sam_time))
                  (run_ops sam_chain iso_extended [OpTick two_pm_next_day]
                     (handle_message sam_chain iso_extended sam w0).2).1).
  { vm_compute. left. reflexivity. }
  destruct (reminder_goes_to_origin sam_chain iso_extended sam "call Sam"
              sam_time w0 [OpTick two_pm_next_day] _
              Hwf sam_extracted Hin eq_refl) as (Hc & _).
  exact (conj Hwf (conj sam_extracted (conj Hin (conj eq_refl Hc)))).
Defined.

Lemma reminder_text_is_prefixed_witness :
  extracted sam_chain iso_extended sam "call Sam" sam_time
  /\ fire_instant sam_time <= utc_instant two_pm_next_day
  /\ Sent 4242 "Reminder: call Sam"
       ∈ outbox (tick two_pm_next_day
                   (handle_message sam_chain iso_extended sam w0).2).2.
Proof.
  assert (Hreach : fire_instant sam_time <= utc_instant two_pm_next_day)
    by (vm_compute; discriminate).
  destruct (reminder_text_is_prefixed sam_chain iso_extended sam "call Sam"
              sam_time w0 two_pm_next_day sam_extracted Hreach)
    as (_ & _ & _ & Hs).
  exact (conj sam_extracted (conj Hreach Hs)).
Defined.

(** * Further properties of the program *)

Section HandlerProperties.

Variable chain_invoke : string -> outcome (gmap string string).
Variable fromisoformat : string -> option datetime.

Local Abbreviation handle := (handle_message chain_invoke fromisoformat).
Local Abbreviation run := (run_ops chain_invoke fromisoformat).

(** X1: the handler does not catch what the chain raises: when the chain
    fails, the same exception leaves [handle_message], and nothing has
    been scheduled or sent, not even a reply. *)
Theorem chain_failure_propagates u w e :
  chain_invoke (message_text u) = Raised e ->
  handle_message chain_invoke fromisoformat u w = (Raised e, w).
Proof.
  intros Hc. unfold handle_message, bind, lift. rewrite Hc. reflexivity.
Qed.

(** X2: [handle_message] returns normally only if the chain answered with
    both keys and the timestamp parsed, and then it has registered the job
    for the extracted task and time and sent the acknowledgement: no
    acknowledgement without a registered job. *)
Theorem handle_returns_only_if_extracted u w :
  (handle_message chain_invoke fromisoformat u w).1 = Returned tt ->
  exists task dt,
    extracted chain_invoke fromisoformat u task dt
    /\ pending (handle u w).2 = pending w ++ [scheduled_job w u task dt]
    /\ outbox (handle u w).2
       = outbox w ++ [Replied (effective_chat_id u)
                        (acknowledgement task (tag_utc dt))].
Proof.
  intros Hr.
  destruct (handle_cases chain_invoke fromisoformat u w)
    as [[e He]|(task & dt & Hx)].
  - rewrite He in Hr. discriminate.
  - exists task, dt.
    destruct (handled_world _ _ u task dt w Hx) as (_ & Hp & _ & _ & Ho).
    auto.
Qed.

(** X3: the keys are read in the order [task], [time], before the timestamp
    is looked at: an answer without [task] raises [KeyError] on [task]
    whatever else it holds, an answer with [task] but without [time]
    raises [KeyError] on [time]; either way nothing is scheduled or sent. *)
Theorem missing_key_raises u w parsed :
  chain_invoke (message_text u) = Returned parsed ->
  parsed !! "task" = None \/ parsed !! "time" = None ->
  handle_message chain_invoke fromisoformat u w
  = (Raised (KeyError (match parsed !! "task" with
                       | Some _ => "time"
                       | None => "task"
                       end)), w).
Proof.
  intros Hc Hmiss.
  unfold handle_message, bind, lift, getitem. rewrite Hc. cbn.
  destruct (parsed !! "task") as [task|]; cbn; [|reflexivity].
  destruct Hmiss as [Hmiss|Hmiss]; [discriminate|].
  rewrite Hmiss. reflexivity.
Qed.

(** X4: whatever the message, [handle_message] leaves the clock alone,
    keeps every pending job where it was (it adds at most one, at the
    end), sends no reminder itself, and adds at most one event to the
    outbox. *)
Theorem handle_frame u w :
  clock (handle_message chain_invoke fromisoformat u w).2 = clock w
  /\ pending w `prefix_of` pending (handle u w).2
  /\ (length (pending (handle u w).2) <= S (length (pending w)))%nat
  /\ sent_messages (outbox (handle u w).2) = sent_messages (outbox w)
  /\ outbox w `prefix_of` outbox (handle u w).2
  /\ (length (outbox (handle u w).2) <= S (length (outbox w)))%nat.
Proof.
  destruct (handle_cases chain_invoke fromisoformat u w)
    as [[e He]|(task & dt & Hx)].
  - rewrite He. cbn. repeat split; try reflexivity; lia.
  - rewrite (handle_extracted _ _ _ _ _ w Hx). cbn [snd clock pending outbox].
    rewrite sent_messages_app, !length_app. cbn.
    rewrite app_nil_r.
    repeat split; try (eexists; reflexivity); lia.
Qed.

(** X5: a reminder is never delivered early: in a run none of whose ticks
    reaches the fire instant, the callback does not run for the reminder
    the message created. *)
Theorem not_delivered_early u task dt w os :
  wf w ->
  extracted chain_invoke fromisoformat u task dt ->
  Forall (fun o => ¬ reaches (fire_instant dt) o) os ->
  deliveries (next_id w) (run os (handle u w).2).1 = 0%nat.
Proof.
  intros Hwf Hx Hnr. unfold deliveries.
  rewrite (handled_then_run _ _ u task dt w os Hwf Hx).
  pose proof (fate_not_reached (fire_instant dt) (next_id w) os Hnr) as Hne.
  destruct (fate (fire_instant dt) (next_id w) os) as [[|]|];
    [congruence|reflexivity..].
Qed.

(** X6: the handler does not merge repeated requests: the same message
    handled twice registers two jobs with different identities and the
    same chat, task and due instant, and a tick that reaches the fire
    instant runs the callback for both. *)
Theorem repeated_message_scheduled_twice u task dt w t :
  extracted chain_invoke fromisoformat u task dt ->
  fire_instant dt <= utc_instant t ->
  exists j1 j2,
    pending (handle u (handle u w).2).2 = pending w ++ [j1; j2]
    /\ job_id j1 <> job_id j2
    /\ reminder_message j1 = reminder_message j2
    /\ job_due j1 = job_due j2
    /\ j1 ∈ (tick t (handle u (handle u w).2).2).1
    /\ j2 ∈ (tick t (handle u (handle u w).2).2).1.
Proof.
  intros Hx Hreach.
  destruct (handled_world _ _ u task dt w Hx) as (_ & Hp1 & Hn1 & _).
  destruct (handled_world _ _ u task dt (handle u w).2 Hx) as (_ & Hp2 & _).
  exists (scheduled_job w u task dt),
         (scheduled_job (handle u w).2 u task dt).
  assert (Hp : pending (handle u (handle u w).2).2
               = pending w ++ [scheduled_job w u task dt;
                               scheduled_job (handle u w).2 u task dt]).
  { rewrite Hp2, Hp1, <- app_assoc. reflexivity. }
  split; [exact Hp|].
  split; [unfold scheduled_job; cbn [job_id]; rewrite Hn1; lia|].
  split; [reflexivity|]. split; [rewrite !scheduled_due; reflexivity|].
  rewrite tick_eq. cbn [fst]. rewrite Hp.
  split; apply list_elem_of_filter; (split;
    [unfold JobQueue.is_due; rewrite scheduled_due; exact Hreach|]);
    apply elem_of_app; right.
  - apply elem_of_cons. left. reflexivity.
  - apply elem_of_cons. right. apply list_elem_of_singleton. reflexivity.
Qed.

End HandlerProperties.

(** ** The timestamp the handler works with *)

Lemma append_nil_r (s : string) : s +:+ EmptyString = s.
Proof.
  induction s as [|a s IH]; [reflexivity|].
  change (String a (s +:+ EmptyString) = String a s). f_equal. exact IH.
Qed.

Lemma append_assoc (a b c : string) : (a +:+ b) +:+ c = a +:+ (b +:+ c).
Proof.
  induction a as [|x a IH]; [reflexivity|].
  change (String x ((a +:+ b) +:+ c) = String x (a +:+ (b +:+ c))).
  f_equal. exact IH.
Qed.

Lemma isoformat_split dt :
  isoformat dt
  = isoformat (Datetime (fields dt) None) +:+ format_offset (utcoffset dt).
Proof.
  unfold isoformat. cbn [fields utcoffset tzinfo format_offset].
  rewrite append_nil_r. rewrite !append_assoc. reflexivity.
Qed.

Lemma format_offset_signed off :
  exists sign rest,
    format_offset (Some off) = String sign rest
    /\ (sign = "+"%char \/ sign = "-"%char).
Proof.
  unfold format_offset. destruct (off <? 0); cbn [String.append];
    eexists _, _; (split; [reflexivity|]); auto.
Qed.

(** X7: lines 67-68 are what keeps line 71 from failing: subtracting the
    aware current time from a naive parsed value raises [TypeError], and
    once the value is tagged the subtraction returns the distance between
    its wall-clock reading, taken as UTC, and the clock. *)
Theorem tagging_prevents_type_error dt c :
  tzinfo dt = None ->
  (exists msg, datetime_sub dt (Datetime c (Some timezone_utc))
               = Raised (TypeError msg))
  /\ datetime_sub (tag_utc dt) (Datetime c (Some timezone_utc))
     = Returned (utc_instant (fields dt) - utc_instant c).
Proof.
  intros Hnaive. split.
  - unfold datetime_sub, utcoffset. rewrite Hnaive. cbn. eauto.
  - rewrite delay_of_tagged, fire_instant_eq, Hnaive. reflexivity.
Qed.

(** X8: tagging is idempotent, always yields an aware value, keeps the
    wall-clock fields, and does not move the instant of a value that was
    aware already: the tagged value denotes the instant of the fields at
    the value's own offset, and at offset zero when it had none. *)
Theorem tag_utc_idempotent dt :
  tag_utc (tag_utc dt) = tag_utc dt
  /\ is_Some (tzinfo (tag_utc dt))
  /\ fields (tag_utc dt) = fields dt
  /\ aware_instant (tag_utc dt)
     = Some (match aware_instant dt with
             | Some i => i
             | None => civil_micros (fields dt)
             end).
Proof.
  split; [unfold tag_utc at 1; rewrite tag_utc_aware; reflexivity|].
  split; [rewrite tag_utc_aware; eauto|].
  split; [apply tag_utc_fields|].
  unfold aware_instant. rewrite tag_utc_aware, tag_utc_fields.
  destruct (tzinfo dt) as [off|]; cbn; [reflexivity|].
  unfold instant, timezone_utc. f_equal. lia.
Qed.

(** X9: the time shown in the acknowledgement always carries an explicit
    offset: the reply reads [Got it! I'll remind you to <task> at
    <wall-clock time><offset>] where the offset begins with a sign, and
    for a timestamp that came without offset it is [+00:00]. *)
Theorem acknowledgement_shows_offset chain_invoke fromisoformat u task dt w :
  extracted chain_invoke fromisoformat u task dt ->
  exists sign rest,
    outbox (handle_message chain_invoke fromisoformat u w).2
    = outbox w
      ++ [Replied (effective_chat_id u)
            ("Got it! I'll remind you to " +:+ task +:+ " at "
             +:+ isoformat (Datetime (fields dt) None) +:+ String sign rest)]
    /\ (sign = "+"%char \/ sign = "-"%char)
    /\ (tzinfo dt = None -> String sign rest = "+00:00").
Proof.
  intros Hx.
  destruct (format_offset_signed (default timezone_utc (tzinfo dt)))
    as (sign & rest & Hfmt & Hsign).
  exists sign, rest.
  destruct (handled_world _ _ u task dt w Hx) as (_ & _ & _ & _ & Ho).
  rewrite Ho. unfold acknowledgement.
  rewrite (isoformat_split (tag_utc dt)). unfold utcoffset.
  rewrite tag_utc_aware, tag_utc_fields, Hfmt.
  split; [reflexivity|]. split; [exact Hsign|].
  intros Hnaive. rewrite <- Hfmt, Hnaive. reflexivity.
Qed.

(** ** Whole runs: nothing lost, nothing twice, nothing unasked *)

Lemma filter_id_split (l : list Job) (k : nat) :
  (length (filter (fun j => job_id j ≠ k) l)
   + length (filter (fun j => job_id j = k) l) = length l)%nat.
Proof.
  induction l as [|x l IH]; [reflexivity|].
  destruct (decide (job_id x = k)) as [Heq|Hne].
  - rewrite (filter_cons_False (fun j => job_id j ≠ k)) by (intros H; exact (H Heq)).
    rewrite (filter_cons_True (fun j => job_id j = k)) by exact Heq.
    cbn. lia.
  - rewrite (filter_cons_True (fun j => job_id j ≠ k)) by exact Hne.
    rewrite (filter_cons_False (fun j => job_id j = k)) by exact Hne.
    cbn. lia.
Qed.

Lemma filter_due_split (l : list Job) (now : Z) :
  (length (filter (fun j => ¬ JobQueue.is_due now j) l)
   + length (filter (JobQueue.is_due now) l) = length l)%nat.
Proof.
  induction l as [|x l IH]; [reflexivity|].
  destruct (decide (JobQueue.is_due now x)) as [Hd|Hn].
  - rewrite (filter_cons_False (fun j => ¬ JobQueue.is_due now j))
      by (intros H; exact (H Hd)).
    rewrite (filter_cons_True (JobQueue.is_due now)) by exact Hd.
    cbn. lia.
  - rewrite (filter_cons_True (fun j => ¬ JobQueue.is_due now j)) by exact Hn.
    rewrite (filter_cons_False (JobQueue.is_due now)) by exact Hn.
    cbn. lia.
Qed.

Lemma fired_jobs_app l1 l2 : fired_jobs (l1 ++ l2) = fired_jobs l1 ++ fired_jobs l2.
Proof. apply omap_app. Qed.

Lemma accepted_app l1 l2 : accepted (l1 ++ l2) = (accepted l1 + accepted l2)%nat.
Proof. unfold accepted. rewrite List.filter_app, length_app. reflexivity. Qed.

Lemma released_app l1 l2 : released (l1 ++ l2) = (released l1 + released l2)%nat.
Proof. unfold released. rewrite List.filter_app, length_app. reflexivity. Qed.

Lemma accepted_Fired (js : list Job) : accepted (Fired <$> js) = 0%nat.
Proof. induction js as [|j js IH]; [reflexivity|exact IH]. Qed.

Lemma released_Fired (js : list Job) : released (Fired <$> js) = 0%nat.
Proof. induction js as [|j js IH]; [reflexivity|exact IH]. Qed.

Lemma fired_id_in_log (log : list obs) (i : nat) :
  i ∈ job_id <$> fired_jobs log -> fired_of i log <> [].
Proof.
  intros Hin. apply list_elem_of_fmap in Hin as (j & -> & Hj).
  apply list_elem_of_omap in Hj as (o & Ho & Hfired).
  destruct o as [r|j'|k b]; try discriminate. injection Hfired as ->.
  assert (Hf : In (Fired j) (fired_of (job_id j) log)).
  { apply List.filter_In. split; [apply list_elem_of_In, Ho|].
    cbn. apply bool_decide_eq_true_2. reflexivity. }
  intros Hnil. rewrite Hnil in Hf. exact Hf.
Qed.

Section RunProperties.

Variable chain_invoke : string -> outcome (gmap string string).
Variable fromisoformat : string -> option datetime.

Local Abbreviation handle := (handle_message chain_invoke fromisoformat).
Local Abbreviation step := (run_op chain_invoke fromisoformat).
Local Abbreviation run := (run_ops chain_invoke fromisoformat).

Lemma step_balance o w :
  wf w ->
  (length (pending (step o w).2) + length (fired_jobs (step o w).1)
   + released (step o w).1
   = length (pending w) + accepted (step o w).1)%nat.
Proof.
  intros Hwf. destruct o as [u|t|k].
  - destruct (step_message chain_invoke fromisoformat u w)
      as [[e ->]|(j & w' & -> & Hp & _)]; cbn; [lia|].
    rewrite Hp, length_app. cbn. lia.
  - rewrite step_tick, tick_eq. cbn [fst snd pending].
    rewrite fired_jobs_Fired, accepted_Fired, released_Fired.
    pose proof (filter_due_split (pending w) (utc_instant t)). lia.
  - rewrite step_cancel. cbn [fst snd JobQueue.cancel pending].
    pose proof (filter_id_split (pending w) k) as Hsplit.
    destruct (decide (k ∈ job_id <$> pending w)) as [Hin|Hout].
    + rewrite bool_decide_eq_true_2 by exact Hin.
      apply list_elem_of_fmap in Hin as (j & -> & Hj).
      destruct Hwf as [_ Hnd].
      rewrite (filter_id_unique _ _ Hnd Hj) in Hsplit. cbn in *. lia.
    + rewrite bool_decide_eq_false_2 by exact Hout.
      rewrite (filter_id_absent _ _ Hout) in Hsplit. cbn in *. lia.
Qed.

(** In the timer registry of the model every job is accounted for: the
    jobs still pending, the callbacks run and the timers released add up
    to the jobs pending at the start plus the messages accepted. *)
Lemma run_balance os w :
  wf w ->
  (length (pending (run os w).2)
   + length (fired_jobs (run os w).1) + released (run os w).1
   = length (pending w) + accepted (run os w).1)%nat.
Proof.
  revert w. induction os as [|o os IH]; intros w Hwf; [cbn; lia|].
  rewrite run_cons. cbn [fst snd].
  rewrite fired_jobs_app, released_app, accepted_app, length_app.
  pose proof (step_balance o w Hwf).
  pose proof (IH _ (step_wf chain_invoke fromisoformat o w Hwf)). lia.
Qed.

(** X10: no reminder is made up: in any run, the callbacks run and the
    timers released by cancellation together never outnumber the jobs
    pending at the start plus the messages the handler accepted. *)
Theorem no_reminder_made_up os w :
  wf w ->
  (length (fired_jobs (run_ops chain_invoke fromisoformat os w).1)
   + released (run os w).1
   <= length (pending w) + accepted (run os w).1)%nat.
Proof.
  intros Hwf. pose proof (run_balance os w Hwf). lia.
Qed.

(** X11: no reminder is delivered twice: in any run from a well-formed
    registry, messages, ticks and cancellations in any order, the jobs
    whose callback ran all have different identities. *)
Theorem no_reminder_twice os w :
  wf w ->
  NoDup (job_id <$> fired_jobs (run_ops chain_invoke fromisoformat os w).1).
Proof.
  revert w. induction os as [|o os IH]; intros w Hwf; [constructor|].
  rewrite run_cons. cbn [fst]. rewrite fired_jobs_app, fmap_app.
  pose proof (step_wf chain_invoke fromisoformat o w Hwf) as Hwf'.
  apply NoDup_app. split; [|split; [|apply IH, Hwf']].
  - destruct o as [u|t|k].
    + destruct (step_message chain_invoke fromisoformat u w)
        as [[e ->]|(j & w' & -> & _)]; constructor.
    + rewrite step_tick, tick_eq. cbn [fst]. rewrite fired_jobs_Fired.
      apply NoDup_ids_filter, Hwf.
    + rewrite step_cancel. constructor.
  - intros i Hi Hlater. apply fired_id_in_log in Hlater. apply Hlater.
    destruct o as [u|t|k].
    + exfalso.
      destruct (step_message chain_invoke fromisoformat u w)
        as [[e He]|(j & w' & He & _)]; rewrite He in Hi; inversion Hi.
    + assert (Hdue : i ∈ job_id <$> filter (JobQueue.is_due (utc_instant t))
                                     (pending w)).
      { rewrite step_tick, tick_eq in Hi. cbn [fst] in Hi.
        rewrite fired_jobs_Fired in Hi. exact Hi. }
      apply list_elem_of_fmap in Hdue as (j & -> & Hj).
      apply list_elem_of_filter in Hj as [Hd Hj].
      assert (Hlt : (job_id j < next_id (step (OpTick t) w).2)%nat).
      { destruct Hwf as [Hlt _]. rewrite Forall_forall in Hlt.
        specialize (Hlt _ Hj).
        pose proof (step_next_id chain_invoke fromisoformat (OpTick t) w).
        lia. }
      destruct (step_pending chain_invoke fromisoformat (OpTick t) w j Hwf Hj)
        as [(Hfate & _)|[(_ & Hgone & _)|(Hfate & _)]].
      * cbn [fate] in Hfate. rewrite decide_True in Hfate by exact Hd.
        discriminate.
      * apply (run_gone chain_invoke fromisoformat os _ _ Hwf' Hgone Hlt).
      * cbn [fate] in Hfate. rewrite decide_True in Hfate by exact Hd.
        discriminate.
    + exfalso. rewrite step_cancel in Hi. inversion Hi.
Qed.

Lemma run_jobs_from (Q : Job -> Prop) os w :
  Forall Q (pending w) ->
  (forall u task dt w',
      OpMessage u ∈ os -> extracted chain_invoke fromisoformat u task dt ->
      Q (scheduled_job w' u task dt)) ->
  Forall Q (pending (run os w).2) /\ Forall Q (fired_jobs (run os w).1).
Proof.
  revert w. induction os as [|o os IH]; intros w Hpend Hnew.
  - split; [exact Hpend|constructor].
  - rewrite run_cons. cbn [fst snd]. rewrite fired_jobs_app, Forall_app.
    assert (Hstep : Forall Q (pending (step o w).2)
                    /\ Forall Q (fired_jobs (step o w).1)).
    { destruct o as [u|t|k].
      - destruct (handle_cases chain_invoke fromisoformat u w)
          as [[e He]|(task & dt & Hx)]; unfold run_op.
        + rewrite He. cbn. split; [exact Hpend|constructor].
        + rewrite (handle_extracted _ _ _ _ _ w Hx). cbn [fst snd pending].
          split; [|constructor]. apply Forall_app. split; [exact Hpend|].
          apply Forall_singleton. eapply Hnew; [|exact Hx].
          apply elem_of_cons. left. reflexivity.
      - rewrite step_tick, tick_eq. cbn [fst snd pending].
        rewrite fired_jobs_Fired. rewrite !Forall_forall in *.
        split; intros j Hj; apply list_elem_of_filter in Hj as [_ Hj]; auto.
      - rewrite step_cancel. cbn [fst snd JobQueue.cancel pending].
        split; [|constructor]. rewrite !Forall_forall in *.
        intros j Hj. apply list_elem_of_filter in Hj as [_ Hj]. auto. }
    destruct Hstep as [Hp1 Hf1].
    destruct (IH (step o w).2 Hp1) as [Hp2 Hf2].
    { intros u task dt w' Hu. apply Hnew. apply elem_of_cons. right. exact Hu. }
    auto.
Qed.

(** X12: the bot only ever reminds those who asked: in a run started with
    an empty registry and an empty outbox, every message [send_message]
    sent goes to the chat of a message of the run for which the extraction
    succeeded, and its text is [Reminder: ] followed by the task extracted
    from that message. *)
Theorem reminders_only_to_requesters c os chat text :
  (chat, text)
    ∈ sent_messages
        (outbox (run_ops chain_invoke fromisoformat os (initial_world c)).2) ->
  exists u task dt,
    OpMessage u ∈ os
    /\ extracted chain_invoke fromisoformat u task dt
    /\ chat = effective_chat_id u
    /\ text = "Reminder: " +:+ task.
Proof.
  intros Hin. rewrite run_sent in Hin. cbn [initial_world outbox] in Hin.
  change (sent_messages []) with (@nil (Z * string)) in Hin.
  rewrite app_nil_l in Hin.
  apply list_elem_of_fmap in Hin as (j & Hmsg & Hj).
  pose (Q := fun j : Job =>
               exists u task dt,
                 OpMessage u ∈ os
                 /\ extracted chain_invoke fromisoformat u task dt
                 /\ job_chat_id j = effective_chat_id u
                 /\ job_data j = task).
  destruct (run_jobs_from Q os (initial_world c)) as [_ Hfired].
  - constructor.
  - intros u task dt w' Hu Hx. exists u, task, dt. cbn. auto.
  - rewrite Forall_forall in Hfired.
    destruct (Hfired j Hj) as (u & task & dt & Hu & Hx & Hc & Hd).
    exists u, task, dt. unfold reminder_message in Hmsg.
    injection Hmsg as -> ->. rewrite Hc, Hd. auto.
Qed.

End RunProperties.

(** ** Start-up *)

Lemma main_handlers environ :
  match Startup.main environ with
  | Startup.RuntimeError _ => True
  | Startup.Polling app =>
      Startup.app_handlers app
      = [Startup.mkMessageHandler
           (Startup.filter_and Startup.TEXT
              (Startup.filter_not Startup.COMMAND))
           Startup.cb_handle_message]
  end.
Proof.
  unfold Startup.main.
  destruct (environ !! "TELEGRAM_BOT_TOKEN") as [[|a token]|]; cbn; auto.
Qed.

(** X13: [main] refuses to start without a bot token, and an empty token
    counts as none: it raises [RuntimeError] exactly when
    [TELEGRAM_BOT_TOKEN] is unset or empty; otherwise it leaves polling an
    application built with that very token and exactly one handler,
    [handle_message] behind the filter [TEXT & ~COMMAND]. *)
Theorem main_needs_token (environ : gmap string string) :
  match Startup.main environ with
  | Startup.RuntimeError msg =>
      (environ !! "TELEGRAM_BOT_TOKEN" = None
       \/ environ !! "TELEGRAM_BOT_TOKEN" = Some EmptyString)
      /\ msg = "TELEGRAM_BOT_TOKEN environment variable not set"
  | Startup.Polling app =>
      environ !! "TELEGRAM_BOT_TOKEN" = Some (Startup.app_token app)
      /\ Startup.app_token app <> EmptyString
      /\ Startup.app_polling app = true
      /\ Startup.app_handlers app
         = [Startup.mkMessageHandler
              (Startup.filter_and Startup.TEXT
                 (Startup.filter_not Startup.COMMAND))
              Startup.cb_handle_message]
  end.
Proof.
  unfold Startup.main.
  destruct (environ !! "TELEGRAM_BOT_TOKEN") as [[|a token]|]; cbn; auto.
Qed.

(** X14: in the application [main] starts, an update that is not text, or
    that is a command, never reaches [handle_message]: it changes nothing,
    no job and no reply. *)
Theorem filtered_updates_change_nothing chain_invoke fromisoformat
    is_text is_command environ app u w :
  Startup.main environ = Startup.Polling app ->
  is_text u = false \/ is_command u = true ->
  Startup.process_update chain_invoke fromisoformat is_text is_command
    (Startup.app_handlers app) u w
  = (Returned tt, w).
Proof.
  intros Hmain Hrefused. pose proof (main_handlers environ) as Hh.
  rewrite Hmain in Hh. rewrite Hh. cbn.
  destruct Hrefused as [-> | ->]; [reflexivity|].
  rewrite andb_false_r. reflexivity.
Qed.

(** ** The further properties at work *)

Lemma naive_extracted :
  extracted (stub_chain "call Sam" "2024-01-02T14:00:00") iso_extended
    sam "call Sam" naive_time.
Proof.
  exists (<["task" := "call Sam"]> (<["time" := "2024-01-02T14:00:00"]> ∅)),
         "2024-01-02T14:00:00".
  repeat split; vm_compute; reflexivity.
Defined.

Lemma tea_world_wf : wf tea_world.
Proof. split; cbn; [repeat constructor | apply NoDup_singleton]. Defined.

Lemma chain_failure_propagates_witness :
  handle_message (fun _ => Raised (ChainError "unreachable")) iso_extended
    sam w0
  = (Raised (ChainError "unreachable"), w0).
Proof.
  exact (chain_failure_propagates
           (fun _ => Raised (ChainError "unreachable")) iso_extended
           sam w0 (ChainError "unreachable") eq_refl).
Defined.

Lemma handle_returns_only_if_extracted_witness :
  (handle_message sam_chain iso_extended sam w0).1 = Returned tt
  /\ exists task dt,
       extracted sam_chain iso_extended sam task dt
       /\ pending (handle_message sam_chain iso_extended sam w0).2
          = pending w0 ++ [scheduled_job w0 sam task dt].
Proof.
  assert (Hr : (handle_message sam_chain iso_extended sam w0).1 = Returned tt)
    by (vm_compute; reflexivity).
  destruct (handle_returns_only_if_extracted sam_chain iso_extended sam w0 Hr)
    as (task & dt & Hx & Hp & _).
  refine (conj Hr _). exists task, dt. exact (conj Hx Hp).
Defined.

Lemma missing_key_raises_witness :
  (∅ : gmap string string) !! "task" = None
  /\ handle_message (fun _ => Returned ∅) iso_extended sam w0
     = (Raised (KeyError "task"), w0).
Proof.
  split; [reflexivity|].
  exact (missing_key_raises (fun _ => Returned ∅) iso_extended sam w0 ∅
           eq_refl (or_introl eq_refl)).
Defined.

Lemma not_delivered_early_witness :
  wf w0
  /\ extracted sam_chain iso_extended sam "call Sam" sam_time
  /\ Forall (fun o => ¬ reaches (fire_instant sam_time) o) [OpTick midnight_2024]
  /\ deliveries (next_id w0)
       (run_ops sam_chain iso_extended [OpTick midnight_2024]
          (handle_message sam_chain iso_extended sam w0).2).1 = 0%nat.
Proof.
  assert (Hwf : wf w0) by apply wf_initial.
  assert (Hnr : Forall (fun o => ¬ reaches (fire_instant sam_time) o)
                  [OpTick midnight_2024]).
  { repeat constructor. intros H. vm_compute in H. apply H. reflexivity. }
  exact (conj Hwf (conj sam_extracted (conj Hnr
           (not_delivered_early sam_chain iso_extended sam "call Sam"
              sam_time w0 [OpTick midnight_2024] Hwf sam_extracted Hnr)))).
Defined.

Lemma repeated_message_scheduled_twice_witness :
  extracted sam_chain iso_extended sam "call Sam" sam_time
  /\ fire_instant sam_time <= utc_instant two_pm_next_day
  /\ exists j1 j2,
       pending (handle_message sam_chain iso_extended sam
                  (handle_message sam_chain iso_extended sam w0).2).2
       = pending w0 ++ [j1; j2]
       /\ job_id j1 <> job_id j2.
Proof.
  assert (Hreach : fire_instant sam_time <= utc_instant two_pm_next_day)
    by (vm_compute; discriminate).
  destruct (repeated_message_scheduled_twice sam_chain iso_extended sam
              "call Sam" sam_time w0 two_pm_next_day sam_extracted Hreach)
    as (j1 & j2 & Hp & Hne & _).
  refine (conj sam_extracted (conj Hreach _)).
  exists j1, j2. exact (conj Hp Hne).
Defined.

Lemma tagging_prevents_type_error_witness :
  tzinfo naive_time = None
  /\ datetime_sub (tag_utc naive_time)
       (Datetime midnight_2024 (Some timezone_utc))
     = Returned (utc_instant (fields naive_time) - utc_instant midnight_2024).
Proof.
  destruct (tagging_prevents_type_error naive_time midnight_2024 eq_refl)
    as [_ Hsub].
  exact (conj eq_refl Hsub).
Defined.

Lemma acknowledgement_shows_offset_witness :
  extracted (stub_chain "call Sam" "2024-01-02T14:00:00") iso_extended
    sam "call Sam" naive_time
  /\ exists sign rest,
       outbox (handle_message (stub_chain "call Sam" "2024-01-02T14:00:00")
                 iso_extended sam w0).2
       = outbox w0
         ++ [Replied (effective_chat_id sam)
               ("Got it! I'll remind you to " +:+ "call Sam" +:+ " at "
                +:+ isoformat (Datetime (fields naive_time) None)
                +:+ String sign rest)]
       /\ String sign rest = "+00:00".
Proof.
  destruct (acknowledgement_shows_offset
              (stub_chain "call Sam" "2024-01-02T14:00:00") iso_extended
              sam "call Sam" naive_time w0 naive_extracted)
    as (sign & rest & Ho & _ & Hutc).
  refine (conj naive_extracted _).
  exists sign, rest. exact (conj Ho (Hutc eq_refl)).
Defined.

Lemma no_reminder_made_up_witness :
  wf tea_world
  /\ (length (fired_jobs (run_ops sam_chain iso_extended
                            (OpMessage sam :: tea_run) tea_world).1)
      + released (run_ops sam_chain iso_extended
                    (OpMessage sam :: tea_run) tea_world).1
      <= length (pending tea_world)
         + accepted (run_ops sam_chain iso_extended
                       (OpMessage sam :: tea_run) tea_world).1)%nat.
Proof.
  exact (conj tea_world_wf
           (no_reminder_made_up sam_chain iso_extended
              (OpMessage sam :: tea_run) tea_world tea_world_wf)).
Defined.

Lemma no_reminder_twice_witness :
  wf tea_world
  /\ NoDup (job_id <$> fired_jobs
              (run_ops sam_chain iso_extended
                 [OpMessage sam; OpTick two_pm_next_day; OpMessage sam;
                  OpTick two_pm_next_day] tea_world).1).
Proof.
  exact (conj tea_world_wf
           (no_reminder_twice sam_chain iso_extended
              [OpMessage sam; OpTick two_pm_next_day; OpMessage sam;
               OpTick two_pm_next_day] tea_world tea_world_wf)).
Defined.

Lemma reminders_only_to_requesters_witness :
  (4242, "Reminder: call Sam")
    ∈ sent_messages
        (outbox (run_ops sam_chain iso_extended
                   [OpMessage sam; OpTick two_pm_next_day]
                   (initial_world midnight_2024)).2)
  /\ exists u task dt,
       OpMessage u ∈ [OpMessage sam; OpTick two_pm_next_day]
       /\ extracted sam_chain iso_extended u task dt
       /\ 4242 = effective_chat_id u
       /\ "Reminder: call Sam" = "Reminder: " +:+ task.
Proof.
  assert (Hin : (4242, "Reminder: call Sam")
                  ∈ sent_messages
                      (outbox (run_ops sam_chain iso_extended
                                 [OpMessage sam; OpTick two_pm_next_day]
                                 (initial_world midnight_2024)).2)).
  { apply list_elem_of_In. vm_compute. left. reflexivity. }
  exact (conj Hin
           (reminders_only_to_requesters sam_chain iso_extended
              midnight_2024 [OpMessage sam; OpTick two_pm_next_day]
              4242 "Reminder: call Sam" Hin)).
Defined.

Lemma filtered_updates_change_nothing_witness :
  exists app,
    Startup.main (<["TELEGRAM_BOT_TOKEN" := "123:abc"]> ∅) = Startup.Polling app
    /\ Startup.process_update sam_chain iso_extended
         (fun _ => true)
         (fun u => match message_text u with
                   | String "/" _ => true
                   | _ => false
                   end)
         (Startup.app_handlers app) (mkUpdate "/start" 4242) w0
       = (Returned tt, w0).
Proof.
  eexists. split; [vm_compute; reflexivity|].
  exact (filtered_updates_change_nothing sam_chain iso_extended
           (fun _ => true)
           (fun u => match message_text u with
                     | String "/" _ => true
                     | _ => false
                     end)
           (<["TELEGRAM_BOT_TOKEN" := "123:abc"]> ∅) _
           (mkUpdate "/start" 4242) w0 eq_refl (or_intror eq_refl)).
Defined.

(** ** Two more facts about what the handler and the callback do *)

(** X15: whether a message is accepted, and with which exception it is
    refused, depends on the chain's answer alone: not on the clock (a time
    already past is accepted like any other), not on the jobs pending, not
    on what was sent before. *)
Theorem handle_outcome_ignores_world chain_invoke fromisoformat u w1 w2 :
  (handle_message chain_invoke fromisoformat u w1).1
  = (handle_message chain_invoke fromisoformat u w2).1.
Proof.
  unfold handle_message, bind, lift, getitem, datetime_fromisoformat,
    datetime_now_utc.
  destruct (chain_invoke (message_text u)) as [parsed|e]; [|reflexivity].
  destruct (parsed !! "task") as [task|]; cbn; [|reflexivity].
  destruct (parsed !! "time") as [time_str|]; cbn; [|reflexivity].
  destruct (fromisoformat time_str) as [dt|]; cbn; [|reflexivity].
  rewrite !delay_of_tagged. reflexivity.
Qed.

(** X16: reminders leave the bot through the callback only, one message
    per invocation: over any run, the messages [send_message] sent are, in
    order, those sent before followed by one [Reminder: <data>] to the
    job's chat for each job whose callback ran; handling messages and
    cancelling add none. *)
Theorem one_message_per_callback chain_invoke fromisoformat os w :
  sent_messages (outbox (run_ops chain_invoke fromisoformat os w).2)
  = sent_messages (outbox w)
    ++ (reminder_message
          <$> fired_jobs (run_ops chain_invoke fromisoformat os w).1).
Proof. apply run_sent. Qed.
